(** * marimo frontend: grid layout editor and islands worker bridge

    A shallow embedding of

    - [frontend/src/components/editor/renderers/grid-layout/grid-layout.tsx]
      (the handlers of [GridLayoutRenderer] that replace the layout document), and
    - [frontend/src/core/islands/worker/worker.tsx]
      (the bootstrap routine and the three RPC request handlers),

    together with the properties of these handlers.

    Conventions of the embedding.

    - A JavaScript string is a [string]; the two markers searched for by the
      worker are ASCII, for which a search over bytes and a search over
      UTF-16 code units agree.
    - A JavaScript number is an exact rational [Q].  The only arithmetic in
      the modelled code is a division by four, a quotient of two pixel counts
      and a [Math.ceil]; rounding of doubles is not modelled.  On whole
      numbers below 2^53 the division of doubles gives the same quarter and
      the same ceiling as the exact one, and what depends on their exact
      value is stated for whole numbers.  Where [NaN] matters (the [||] of
      the dragged item) numbers are [Grid.Number], which has it.
    - A [Map] keyed by cell ids is a [gmap string _], a [Set] of cell ids a
      [gset string]; insertion order is not modelled.
    - A promise is its eventual state: fulfilled, rejected, or never
      settled. *)

From Stdlib Require Import ZArith QArith Qround String Ascii List Bool Lia.
From stdpp Require Import gmap strings list.

Local Open Scope string_scope.
Local Open Scope list_scope.

(* ===================================================================== *)
(** * JavaScript primitives used by both files *)
(* ===================================================================== *)

Module Js.

(** [pat] is a prefix of [s]: the test [s.startsWith(pat)]. *)
Fixpoint startsWith (s pat : string) : bool :=
  match pat with
  | EmptyString => true
  | String p pat' =>
      match s with
      | EmptyString => false
      | String c s' => Ascii.eqb c p && startsWith s' pat'
      end
  end.

(** [s.includes(pat)]: [pat] occurs at some position of [s]. *)
Fixpoint includes (s pat : string) : bool :=
  startsWith s pat ||
  match s with
  | EmptyString => false
  | String _ s' => includes s' pat
  end.

(** Truthiness of a number: [0] is falsy (and so is [NaN], which the
    rationals do not have). *)
Definition truthy (n : Q) : bool := negb (Qeq_bool n 0).

(** [n || d] on numbers. *)
Definition or_else (n d : Q) : Q := if truthy n then n else d.

(** [n || d] where [n] may be [undefined]. *)
Definition or_else_opt (n : option Q) (d : Q) : Q :=
  match n with
  | Some v => or_else v d
  | None => d
  end.

(** [Math.ceil]. *)
Definition ceil (n : Q) : Q := inject_Z (Qceiling n).

(** The line feed of a template literal's [\n]. *)
Definition nl : string := String "010"%char EmptyString.

(** The values that cross the RPC transport and the bridge: JSON data
    and [undefined].  A number is carried as the JSON number literal that
    denotes it; its double is never computed by the modelled code. *)
#[warnings="-register-all"]
Inductive Value :=
| VUndefined
| VNull
| VBool (b : bool)
| VNumber (literal : string)
| VString (s : string)
| VArray (elements : list Value)
| VObject (members : list (string * Value)).

(** [v == null] *)
Definition nullish (v : Value) : bool :=
  match v with
  | VUndefined | VNull => true
  | _ => false
  end.

(** Thrown values. *)
Inductive JsError :=
| Error (message : string)
| TypeError (message : string)
| SyntaxError (message : string).

End Js.

(* ===================================================================== *)
(** * The built-ins [JSON.parse] and [JSON.stringify] *)
(* ===================================================================== *)

(** The worker is stated over any behaviour of the two built-ins; this
    module is the behaviour used to run it on concrete inputs.  It follows
    the JSON grammar of ECMA-404 on byte strings: an escape [\uXXXX] is
    stored in UTF-8 (a surrogate pair as one four-byte sequence), bytes
    above 127 are copied.  Not modelled: the property order of integer-like
    keys, and the escaping of lone surrogates by [JSON.stringify]. *)
Module Json.
Import Js.

Definition dquote : ascii := "034"%char.
Definition backslash : ascii := "092"%char.

Definition code (c : ascii) : N := N_of_ascii c.
Definition chr (n : N) : ascii := ascii_of_N n.
Definition str (c : ascii) : string := String c EmptyString.

Definition is_ws (c : ascii) : bool :=
  match code c with
  | 32 | 9 | 10 | 13 => true
  | _ => false
  end%N.

Definition is_digit (c : ascii) : bool :=
  ((48 <=? code c) && (code c <=? 57))%N.

Fixpoint skip_ws (s : string) : string :=
  match s with
  | String c s' => if is_ws c then skip_ws s' else s
  | EmptyString => s
  end.

(** The longest run of digits at the head of [s], and the rest. *)
Fixpoint digits (s : string) : string * string :=
  match s with
  | String c s' =>
      if is_digit c then let (d, r) := digits s' in (String c d, r)
      else (EmptyString, s)
  | EmptyString => (EmptyString, s)
  end.

(** A number token: an optional minus, then zero or a digit run without
    leading zero, then an optional fraction (a dot and digits), then an
    optional exponent (e or E, an optional sign, digits). *)
Definition number (s : string) : option (string * string) :=
  let (sign, s1) :=
    match s with
    | String "-" r => ("-", r)
    | _ => ("", s)
    end in
  let int :=
    match s1 with
    | String "0" r => Some ("0", r)
    | _ => let (d, r) := digits s1 in
           if String.eqb d "" then None else Some (d, r)
    end in
  match int with
  | None => None
  | Some (i, s2) =>
      let frac :=
        match s2 with
        | String "." r =>
            let (d, r') := digits r in
            if String.eqb d "" then None else Some ("." +:+ d, r')
        | _ => Some ("", s2)
        end in
      match frac with
      | None => None
      | Some (f, s3) =>
          let exp :=
            match s3 with
            | String e r =>
                if (Ascii.eqb e "e" || Ascii.eqb e "E")%bool then
                  let (sg, r1) :=
                    match r with
                    | String "+" r1 => ("+", r1)
                    | String "-" r1 => ("-", r1)
                    | _ => ("", r)
                    end in
                  let (d, r2) := digits r1 in
                  if String.eqb d "" then None
                  else Some (str e +:+ sg +:+ d, r2)
                else Some ("", s3)
            | EmptyString => Some ("", s3)
            end in
          match exp with
          | None => None
          | Some (e, s4) => Some (sign +:+ i +:+ f +:+ e, s4)
          end
      end
  end.

Definition hex (c : ascii) : option N :=
  let n := code c in
  if ((48 <=? n) && (n <=? 57))%N then Some (n - 48)%N
  else if ((97 <=? n) && (n <=? 102))%N then Some (n - 87)%N
  else if ((65 <=? n) && (n <=? 70))%N then Some (n - 55)%N
  else None.

Definition hex4 (a b c d : ascii) : option N :=
  match hex a, hex b, hex c, hex d with
  | Some x, Some y, Some z, Some t => Some (((x * 16 + y) * 16 + z) * 16 + t)%N
  | _, _, _, _ => None
  end.

(** A piece of a string literal: a byte copied from the text, or the
    code unit of a [\uXXXX] escape. *)
Inductive piece := Byte (c : ascii) | Unit (u : N).

Definition simple_escape (c : ascii) : option ascii :=
  match code c with
  | 34 => Some dquote
  | 92 => Some backslash
  | 47 => Some "/"%char
  | 98 => Some (chr 8)
  | 102 => Some (chr 12)
  | 110 => Some (chr 10)
  | 114 => Some (chr 13)
  | 116 => Some (chr 9)
  | _ => None
  end%N.

(** The text after an opening quote, up to the closing one. *)
Fixpoint string_body (s : string) : option (list piece * string) :=
  let cons p r :=
    match r with
    | Some (ps, rest) => Some (p :: ps, rest)
    | None => None
    end in
  match s with
  | EmptyString => None
  | String c s' =>
      if Ascii.eqb c dquote then Some ([], s')
      else if Ascii.eqb c backslash then
        match s' with
        | String "u" (String h1 (String h2 (String h3 (String h4 r)))) =>
            match hex4 h1 h2 h3 h4 with
            | Some u => cons (Unit u) (string_body r)
            | None => None
            end
        | String e r =>
            match simple_escape e with
            | Some c' => cons (Byte c') (string_body r)
            | None => None
            end
        | EmptyString => None
        end
      else if (code c <? 32)%N then None
      else cons (Byte c) (string_body s')
  end.

(** UTF-8 of a code point (generalised to lone surrogates). *)
Definition utf8 (cp : N) : string :=
  (if cp <? 128 then str (chr cp)
   else if cp <? 2048 then
     String (chr (192 + cp / 64)) (str (chr (128 + cp mod 64)))
   else if cp <? 65536 then
     String (chr (224 + cp / 4096))
       (String (chr (128 + (cp / 64) mod 64)) (str (chr (128 + cp mod 64))))
   else
     String (chr (240 + cp / 262144))
       (String (chr (128 + (cp / 4096) mod 64))
          (String (chr (128 + (cp / 64) mod 64)) (str (chr (128 + cp mod 64))))))%N.

Definition is_high (u : N) : bool := ((55296 <=? u) && (u <=? 56319))%N.
Definition is_low (u : N) : bool := ((56320 <=? u) && (u <=? 57343))%N.

Fixpoint decode (ps : list piece) : string :=
  match ps with
  | [] => EmptyString
  | Byte c :: ps' => String c (decode ps')
  | Unit u :: ps' =>
      match ps' with
      | Unit v :: ps'' =>
          if (is_high u && is_low v)%bool
          then utf8 (65536 + (u - 55296) * 1024 + (v - 56320))%N +:+ decode ps''
          else utf8 u +:+ decode ps'
      | _ => utf8 u +:+ decode ps'
      end
  end.

(** [obj[k] = v]: a repeated key keeps its place and takes the new value. *)
Fixpoint put (k : string) (v : Value) (ms : list (string * Value))
    : list (string * Value) :=
  match ms with
  | [] => [(k, v)]
  | (k', v') :: ms' =>
      if String.eqb k k' then (k, v) :: ms' else (k', v') :: put k v ms'
  end.

(** One JSON value at the head of [s] (after white space), and the rest
    of the text; [fuel] bounds the depth of the recursion. *)
Fixpoint value (fuel : nat) (s : string) : option (Value * string) :=
  match fuel with
  | O => None
  | S fuel' =>
      let s := skip_ws s in
      if startsWith s "null" then Some (VNull, String.substring 4 (String.length s) s)
      else if startsWith s "true" then Some (VBool true, String.substring 4 (String.length s) s)
      else if startsWith s "false" then Some (VBool false, String.substring 5 (String.length s) s)
      else
        match s with
        | EmptyString => None
        | String c r =>
            if Ascii.eqb c dquote then
              match string_body r with
              | Some (ps, r') => Some (VString (decode ps), r')
              | None => None
              end
            else if Ascii.eqb c "[" then
              match skip_ws r with
              | String "]" r' => Some (VArray [], r')
              | _ =>
                  match elements fuel' r with
                  | Some (vs, r') => Some (VArray vs, r')
                  | None => None
                  end
              end
            else if Ascii.eqb c "{" then
              match skip_ws r with
              | String "}" r' => Some (VObject [], r')
              | _ =>
                  match members fuel' [] r with
                  | Some (ms, r') => Some (VObject ms, r')
                  | None => None
                  end
              end
            else
              match number s with
              | Some (lit, r') => Some (VNumber lit, r')
              | None => None
              end
        end
  end

(** The elements of an array after its opening bracket, up to the
    closing one. *)
with elements (fuel : nat) (s : string) : option (list Value * string) :=
  match fuel with
  | O => None
  | S fuel' =>
      match value fuel' s with
      | None => None
      | Some (v, r) =>
          match skip_ws r with
          | String "]" r' => Some ([v], r')
          | String "," r' =>
              match elements fuel' r' with
              | Some (vs, r'') => Some (v :: vs, r'')
              | None => None
              end
          | _ => None
          end
      end
  end

(** The members of an object after its opening brace, up to the closing
    one, added to [acc]. *)
with members (fuel : nat) (acc : list (string * Value)) (s : string)
    : option (list (string * Value) * string) :=
  match fuel with
  | O => None
  | S fuel' =>
      match skip_ws s with
      | String c r =>
          if Ascii.eqb c dquote then
            match string_body r with
            | None => None
            | Some (ps, r1) =>
                match skip_ws r1 with
                | String ":" r2 =>
                    match value fuel' r2 with
                    | None => None
                    | Some (v, r3) =>
                        let acc' := put (decode ps) v acc in
                        match skip_ws r3 with
                        | String "}" r4 => Some (acc', r4)
                        | String "," r4 => members fuel' acc' r4
                        | _ => None
                        end
                    end
                | _ => None
                end
            end
          else None
      | EmptyString => None
      end
  end.

(** [JSON.parse(text)]; [None] is the [SyntaxError].  The recursion goes
    one level deeper for each bracket and each element of the text. *)
Definition parse (text : string) : option Value :=
  match value (2 * String.length text + 2) text with
  | Some (v, r) => if String.eqb (skip_ws r) "" then Some v else None
  | None => None
  end.

Definition hexdigit (n : N) : ascii :=
  (if n <? 10 then chr (48 + n) else chr (87 + n))%N.

Definition escape (c : ascii) : string :=
  match code c with
  | 34 => String backslash (str dquote)
  | 92 => String backslash (str backslash)
  | 8 => String backslash "b"
  | 12 => String backslash "f"
  | 10 => String backslash "n"
  | 13 => String backslash "r"
  | 9 => String backslash "t"
  | n => if (n <? 32)%N
         then String backslash ("u00" +:+ String (hexdigit (n / 16)) (str (hexdigit (n mod 16))))
         else str c
  end%N.

Fixpoint escaped (s : string) : string :=
  match s with
  | EmptyString => EmptyString
  | String c s' => escape c +:+ escaped s'
  end.

Definition quote (s : string) : string :=
  String dquote (escaped s +:+ str dquote).

Fixpoint join (sep : string) (l : list string) : string :=
  match l with
  | [] => ""
  | [a] => a
  | a :: l' => a +:+ sep +:+ join sep l'
  end.

(** [JSON.stringify(v)]; [None] is the result [undefined]. *)
Fixpoint stringify (v : Value) : option string :=
  match v with
  | VUndefined => None
  | VNull => Some "null"
  | VBool true => Some "true"
  | VBool false => Some "false"
  | VNumber lit => Some lit
  | VString s => Some (quote s)
  | VArray vs =>
      Some ("[" +:+ join "," (map (fun x => default "null" (stringify x)) vs) +:+ "]")
  | VObject ms =>
      Some ("{" +:+
            join "," (omap (fun kv => match stringify (snd kv) with
                                      | Some t => Some (quote (fst kv) +:+ ":" +:+ t)
                                      | None => None
                                      end) ms)
            +:+ "}")
  end.

End Json.

(* ===================================================================== *)
(** * grid-layout.tsx *)
(* ===================================================================== *)

Module Grid.

Definition CellId := string.

(** [GridLayoutCellSide] of [./types]; the values that [GridCell] tests
    [side] against. *)
Inductive GridLayoutCellSide := side_top | side_bottom | side_left | side_right.

#[export] Instance GridLayoutCellSide_eq_dec : EqDecision GridLayoutCellSide.
Proof. solve_decision. Defined.

(** An entry of the placed-cell list: the layout item of the grid
    library, [{i, x, y, w, h}]. *)
Module Item.
Record t := mk { i : CellId; x : Q; y : Q; w : Q; h : Q }.
End Item.

(** The item handed to the grid library while a tray cell is dragged:
    the state [droppingItem], [{i, w?, h?}]. *)
Module Dropping.
Record t := mk { i : CellId; w : option Q; h : option Q }.
End Dropping.

(** Modelled from the spec: the [GridLayout] type of [./types], the
    layout document of section 3 (columns, rowHeight, maxWidth, bordered,
    cells, scrollableCells, cellSide). *)
Record GridLayout := mkLayout {
  columns : Q;
  rowHeight : Q;
  maxWidth : option Q;
  bordered : bool;
  cells : list Item.t;
  scrollableCells : gset CellId;
  cellSide : gmap CellId GridLayoutCellSide
}.

(** [{...layout, cells: cs}] *)
Definition with_cells (layout : GridLayout) (cs : list Item.t) : GridLayout :=
  mkLayout (columns layout) (rowHeight layout) (maxWidth layout)
           (bordered layout) cs (scrollableCells layout) (cellSide layout).

(** [{...layout, cellSide: m}] *)
Definition with_cellSide (layout : GridLayout)
    (m : gmap CellId GridLayoutCellSide) : GridLayout :=
  mkLayout (columns layout) (rowHeight layout) (maxWidth layout)
           (bordered layout) (cells layout) (scrollableCells layout) m.

(** [{...layout, scrollableCells: s}] *)
Definition with_scrollableCells (layout : GridLayout) (s : gset CellId) : GridLayout :=
  mkLayout (columns layout) (rowHeight layout) (maxWidth layout)
           (bordered layout) (cells layout) s (cellSide layout).

(** A notebook cell of the [cells] prop; only the fields the handlers
    read. *)
Record NotebookCell := mkCell { id : CellId; code : string }.

(** Every handler hands the new document to the host's [setLayout]; a
    handler is modelled by the document it hands over ([None] when it
    returns without calling [setLayout]). *)

(** [const inGridIds = new Set(layout.cells.map((cell) => cell.i))] *)
Definition inGridIds (layout : GridLayout) : gset CellId :=
  list_to_set (map Item.i (cells layout)).

(** The ids of a placed-cell list, in order. *)
Definition ids (cs : list Item.t) : list CellId := map Item.i cs.

(** The invariant of the layout document: no two placed cells share an
    id. *)
Definition unique_ids (layout : GridLayout) : Prop := NoDup (ids (cells layout)).

(** [handleMakeScrollable] *)
Definition handleMakeScrollable (layout : GridLayout) (cellId : CellId)
    (isScrollable : bool) : GridLayout :=
  let scrollable := scrollableCells layout in
  with_scrollableCells layout
    (if isScrollable then {[cellId]} ∪ scrollable else scrollable ∖ {[cellId]}).

(** [handleSetSide] *)
Definition handleSetSide (layout : GridLayout) (cellId : CellId)
    (side : GridLayoutCellSide) : GridLayout :=
  let m := cellSide layout in
  with_cellSide layout
    (if decide (Some side = m !! cellId) then delete cellId m
     else <[cellId := side]> m).

(** [onLayoutChange={(cellLayouts) => setLayout({...layout, cells: cellLayouts})}] *)
Definition onLayoutChange (layout : GridLayout) (cellLayouts : list Item.t)
    : GridLayout :=
  with_cells layout cellLayouts.

(** [onDrop]: [dropped] may be [undefined], in which case the handler
    returns before [setLayout]. *)
Definition onDrop (layout : GridLayout) (cellLayouts : list Item.t)
    (dropped : option Item.t) : option GridLayout :=
  match dropped with
  | None => None
  | Some d => Some (with_cells layout (cellLayouts ++ [d]))
  end.

(** [onDelete] of the editable cell [cellId]. *)
Definition onDelete (layout : GridLayout) (cellId : CellId) : GridLayout :=
  with_cells layout
    (filter (λ c, Item.i c ≠ cellId) (cells layout)).

(** [const notInGrid = cells.filter((cell) => !inGridIds.has(cell.id))] *)
Definition notInGrid (layout : GridLayout) (notebook : list NotebookCell)
    : list NotebookCell :=
  filter (λ cell, id cell ∉ inGridIds layout) notebook.

(** The tray's [onDragStart]: the value given to [setDroppingItem];
    [height] is [e.currentTarget.offsetHeight], a whole number of pixels.
    The quotient is the exact one; the quotient of doubles that the code
    takes has the same ceiling when the row height is a whole number. *)
Definition tray_onDragStart (layout : GridLayout) (cell : NotebookCell)
    (height : Z) : Dropping.t :=
  Dropping.mk (id cell)
    (Some (columns layout / 4)%Q)
    (Some (Js.or_else (Js.ceil (inject_Z height / rowHeight layout)%Q) 1%Q)).

(** The [droppingItem] prop handed to the grid library. *)
Definition droppingItem_prop (droppingItem : option Dropping.t)
    : option Dropping.t :=
  match droppingItem with
  | Some d =>
      Some (Dropping.mk (Dropping.i d)
              (Some (Js.or_else_opt (Dropping.w d) 2%Q))
              (Some (Js.or_else_opt (Dropping.h d) 2%Q)))
  | None => None
  end.

(** ** What is rendered from the document *)

(** The children of the grid:
    [cells.filter((cell) => inGridIds.has(cell.id))]. *)
Definition inGrid (layout : GridLayout) (notebook : list NotebookCell)
    : list NotebookCell :=
  filter (λ cell, id cell ∈ inGridIds layout) notebook.

(** The tray as rendered: in read mode the renderer returns the grid
    before the tray is built ([if (isReading) { ... return grid; }]), so
    there is none; [isReading] is [mode === "read"]. *)
Definition rendered_tray (isReading : bool) (layout : GridLayout)
    (notebook : list NotebookCell) : option (list NotebookCell) :=
  if isReading then None else Some (notInGrid layout notebook).

(** The notebook cells that are rendered: the children of the grid, then
    the cells of the tray when there is one. *)
Definition rendered_cells (isReading : bool) (layout : GridLayout)
    (notebook : list NotebookCell) : list NotebookCell :=
  inGrid layout notebook ++ default [] (rendered_tray isReading layout notebook).

(** [const isScrollable = layout.scrollableCells.has(cell.id) ?? false] *)
Definition isScrollable (layout : GridLayout) (cellId : CellId) : bool :=
  bool_decide (cellId ∈ scrollableCells layout).

(** The menu item [Scrollable] of a placed cell:
    [onSelect={() => setIsScrollable(!isScrollable)}], with
    [setIsScrollable={handleMakeScrollable(cell.id)}]. *)
Definition select_scrollable (layout : GridLayout) (cellId : CellId) : GridLayout :=
  handleMakeScrollable layout cellId (negb (isScrollable layout cellId)).

(** The icons of the side menu. *)
Inductive Icon :=
| AlignStartVerticalIcon
| AlignEndVerticalIcon
| AlignHorizontalSpaceAroundIcon.

(** [Objects.entries(SIDE_TO_ICON)]: the options of the side menu, in
    order; only the horizontal sides are offered. *)
Definition SIDE_TO_ICON : list (GridLayoutCellSide * Icon) :=
  [(side_left, AlignStartVerticalIcon); (side_right, AlignEndVerticalIcon)].

(** [SideIcon] of [GridHoverActions]; [None] is [undefined]. *)
Definition SideIcon (side : option GridLayoutCellSide) : option Icon :=
  match side with
  | Some side_left => Some AlignStartVerticalIcon
  | Some side_right => Some AlignEndVerticalIcon
  | _ => None
  end.

(** The icon of the menu's trigger:
    [SideIcon ? <SideIcon/> : <AlignHorizontalSpaceAroundIcon/>]. *)
Definition trigger_icon (side : option GridLayoutCellSide) : Icon :=
  default AlignHorizontalSpaceAroundIcon (SideIcon side).

(** The options that carry the check mark: [option === side]. *)
Definition checked_options (side : option GridLayoutCellSide)
    : list GridLayoutCellSide :=
  filter (λ option, Some option = side) (map fst SIDE_TO_ICON).

(** ** The dragged item with all values of a number *)

(** A JavaScript number with the values that the exact numbers leave
    out: [NaN] and the two infinities. *)
Inductive Number :=
| NaN
| Infinity (negative : bool)
| Finite (q : Q).

(** Truthiness of a number: zero and [NaN] are falsy. *)
Definition number_truthy (n : Number) : bool :=
  match n with
  | NaN => false
  | Infinity _ => true
  | Finite q => Js.truthy q
  end.

(** [n || d] where [n] may be [undefined]. *)
Definition number_or_else (n : option Number) (d : Number) : Number :=
  match n with
  | Some v => if number_truthy v then v else d
  | None => d
  end.

(** The state [droppingItem] with such numbers. *)
Module Dragged.
Record t := mk { i : CellId; w : option Number; h : option Number }.
End Dragged.

(** The [droppingItem] prop handed to the grid library:
    [{i: droppingItem.i, w: droppingItem.w || 2, h: droppingItem.h || 2}],
    or [undefined]. *)
Definition droppingItem_number (droppingItem : option Dragged.t)
    : option Dragged.t :=
  match droppingItem with
  | Some d =>
      Some (Dragged.mk (Dragged.i d)
              (Some (number_or_else (Dragged.w d) (Finite 2)))
              (Some (number_or_else (Dragged.h d) (Finite 2))))
  | None => None
  end.

(** An item of exact numbers, as an item of numbers. *)
Definition dragged_of (d : Dropping.t) : Dragged.t :=
  Dragged.mk (Dropping.i d) (Finite <$> Dropping.w d) (Finite <$> Dropping.h d).

(** A number that the grid library can place: not [NaN] and not zero. *)
Definition placeable (n : Number) : Prop :=
  n ≠ NaN ∧ ∀ q, n = Finite q → ¬ (q == 0)%Q.

(** ** The maximum width *)

(** [{...layout, maxWidth: w}] *)
Definition with_maxWidth (layout : GridLayout) (w : option Q) : GridLayout :=
  mkLayout (columns layout) (rowHeight layout) w (bordered layout)
           (cells layout) (scrollableCells layout) (cellSide layout).

(** The [onChange] of the field [Max Width (px)]:
    [maxWidth: Number.isNaN(valueAsNumber) ? undefined : valueAsNumber];
    [valueAsNumber] is a number or ([None]) [NaN]. *)
Definition maxWidth_onChange (layout : GridLayout) (valueAsNumber : option Q)
    : GridLayout :=
  with_maxWidth layout
    (match valueAsNumber with
     | None => None
     | Some v => Some v
     end).

(** The pixels of [styles.maxWidth], set under [if (layout.maxWidth)]. *)
Definition styles_maxWidth (layout : GridLayout) : option Q :=
  match maxWidth layout with
  | Some v => if Js.truthy v then Some v else None
  | None => None
  end.

(** Whether the grid has the class [min-w-[800px]]: [!layout.maxWidth]. *)
Definition min_width_class (layout : GridLayout) : bool :=
  match maxWidth layout with
  | Some v => negb (Js.truthy v)
  | None => true
  end.

(** ** Sample documents *)

Definition item_a : Item.t := Item.mk "a" 0 0 3 2.
Definition item_b : Item.t := Item.mk "b" 3 0 3 2.
Definition item_c : Item.t := Item.mk "c" 0 2 3 3.
Definition cell_a : NotebookCell := mkCell "a" "x = 1".
Definition cell_b : NotebookCell := mkCell "b" "x + 1".
Definition cell_c : NotebookCell := mkCell "c" "mo.md(str(x))".

(** Twelve columns, rows of twenty pixels, [a] and [b] placed, [c] in
    the tray, [b] docked to the left. *)
Definition layout_ab : GridLayout :=
  mkLayout 12 20 None false [item_a; item_b] ∅ {[ "b" := side_left ]}.

End Grid.

(* ===================================================================== *)
(** * worker.tsx *)
(* ===================================================================== *)

(** The bootstrap routine, the module body and the three request
    handlers.  The message buffer is only handed to the session as its
    sink ([onMessage: messageBuffer.push]); it and the [consumerReady]
    listener take no part in what the handlers do and are left out. *)
Module Worker.
Import Js.

(** ** Promises and the outside world *)

(** The eventual state of a promise. *)
Inductive Promise (A : Type) :=
| Fulfilled (a : A)
| Rejected (e : JsError)
| Pending.
Arguments Fulfilled {A} a.
Arguments Rejected {A} e.
Arguments Pending {A}.

(** The messages of [WorkerSchema]. *)
Inductive Message :=
| ready
| kernelMessage (message : string)
| initialized
| initializedError (error : string).

(** [SerializedBridge]: the named, asynchronously invokable functions of
    the session, called with one argument or none.  A name the object
    does not have is a call that rejects. *)
Definition SerializedBridge := string -> option string -> Promise Value.

(** The part of [PyodideInterface] the worker uses. *)
Record PyodideInterface := {
  loadPackagesFromImports : string -> Promise unit
}.

(** The object that [mountFilesystem] resolves to and that is spread
    into the argument of [startSession]. *)
Definition Notebook := Value.

(** [ReadonlyWasmController] of [./controller]: its three asynchronous
    methods, each given by the promise it returns. *)
Record ReadonlyWasmController := {
  bootstrap : string -> string -> Promise PyodideInterface;
  mountFilesystem : string -> string -> Promise Notebook;
  startSession : Notebook -> Promise SerializedBridge
}.

(** What the worker does that is visible from outside, in order. *)
Inductive Event :=
| Send (m : Message)
| LogError (label : string) (e : JsError)
| CallMountFilesystem (code filename : string)
| CallStartSession (notebook : Notebook)
| ResolveBridge
| CallLoadPackagesFromImports (code : string)
| CallBridge (functionName : string) (argument : option string).

(** The module-level variables: [self.controller], [self.pyodide],
    [pyodideReadyPromise], [bridgeReady] (unset until resolved), and the
    events so far. *)
Record State := mkState {
  controller : option ReadonlyWasmController;
  pyodide : option PyodideInterface;
  pyodideReadyPromise : Promise unit;
  bridgeReady : option SerializedBridge;
  trace : list Event
}.

(** ** Asynchronous code

    An [async] body is run to its end against the state; it yields the
    state it leaves and the eventual state of the promise it returned.
    [await] of a promise that never settles stops the body there. *)
Definition Async (A : Type) : Type := State -> State * Promise A.

Definition ret {A} (a : A) : Async A := fun st => (st, Fulfilled a).

Definition throw {A} (e : JsError) : Async A := fun st => (st, Rejected e).

Definition bind {A B} (m : Async A) (k : A -> Async B) : Async B :=
  fun st =>
    match m st with
    | (st', Fulfilled a) => k a st'
    | (st', Rejected e) => (st', Rejected e)
    | (st', Pending) => (st', Pending)
    end.

(** [try { m } catch (error) { handler }] *)
Definition try_catch {A} (m : Async A) (handler : JsError -> Async A) : Async A :=
  fun st =>
    match m st with
    | (st', Rejected e) => handler e st'
    | r => r
    end.

(** [await p] *)
Definition await {A} (p : Promise A) : Async A := fun st => (st, p).

Definition get {A} (f : State -> A) : Async A := fun st => (st, Fulfilled (f st)).

Definition modify (f : State -> State) : Async unit :=
  fun st => (f st, Fulfilled tt).

(** The state with one more event. *)
Definition log (ev : Event) (st : State) : State :=
  mkState (controller st) (pyodide st) (pyodideReadyPromise st)
          (bridgeReady st) (trace st ++ [ev]).

Definition emit (ev : Event) : Async unit := modify (log ev).

Definition set_controller (c : ReadonlyWasmController) : Async unit :=
  modify (fun st => mkState (Some c) (pyodide st) (pyodideReadyPromise st)
                            (bridgeReady st) (trace st)).

Definition set_pyodide (p : PyodideInterface) : Async unit :=
  modify (fun st => mkState (controller st) (Some p) (pyodideReadyPromise st)
                            (bridgeReady st) (trace st)).

Definition set_pyodideReadyPromise (p : Promise unit) (st : State) : State :=
  mkState (controller st) (pyodide st) p (bridgeReady st) (trace st).

(** The state after [bridgeReady.resolve(bridge)]: a deferred keeps the
    value it was first resolved with. *)
Definition resolve (bridge : SerializedBridge) (st : State) : State :=
  log ResolveBridge
    (mkState (controller st) (pyodide st) (pyodideReadyPromise st)
             (Some (default bridge (bridgeReady st))) (trace st)).

Definition resolve_bridgeReady (bridge : SerializedBridge) : Async unit :=
  modify (resolve bridge).

(** The [x ← m; k] and [m;; k] of stdpp, for [Async]. *)
#[export] Instance Async_ret : MRet Async := @ret.
#[export] Instance Async_bind : MBind Async := fun A B k m => bind m k.

Section Handlers.

(** [prettyError] of [utils/errors]. *)
Variable prettyError : JsError -> string.
(** [getPyodideVersion] of [@/core/wasm/worker/getPyodideVersion]. *)
Variable getPyodideVersion : string -> string.
(** The object [new ReadonlyWasmController()] constructs. *)
Variable theController : ReadonlyWasmController.
(** The built-ins [JSON.stringify] ([None]: the result [undefined])
    and [JSON.parse] ([None]: it throws). *)
Variable JSON_stringify : Value -> option string.
Variable JSON_parse : string -> option Value.

(** [rpc.send.m(...)] *)
Definition send (m : Message) : Async unit := emit (Send m).

(** [loadPyodideAndPackages]; [name] is [self.name], the worker name
    that [getMarimoVersion] returns.  The constructor of the controller
    and [getPyodideVersion] are taken to return, and [bootstrap] to report
    a failure by rejecting the promise it returns. *)
Definition loadPyodideAndPackages (name : string) : Async unit :=
  let marimoVersion := name in
  let pyodideVersion := getPyodideVersion marimoVersion in
  try_catch
    (set_controller theController;;
     py ← await (bootstrap theController marimoVersion pyodideVersion);
     set_pyodide py)
    (fun error =>
       emit (LogError "Error bootstrapping" error);;
       send (initializedError (prettyError error))).

(** The state before the module runs. *)
Definition initial : State := mkState None None Pending None [].

(** The module body: [pyodideReadyPromise = loadPyodideAndPackages()],
    the creation of the deferred, and [rpc.send("ready", {})].  The
    bootstrap routine emits nothing before its [await], and [ready] is
    sent before the awaited promise settles, so [ready] is the first
    event. *)
Definition main (name : string) : State :=
  let '(st, _) := send ready initial in
  let '(st', p) := loadPyodideAndPackages name st in
  set_pyodideReadyPromise p st'.

(** [await pyodideReadyPromise] *)
Definition await_pyodideReady : Async unit :=
  fun st => (st, pyodideReadyPromise st).

(** [await bridgeReady.promise]: never resumed while the deferred is
    unresolved. *)
Definition await_bridgeReady : Async SerializedBridge :=
  fun st => (st, match bridgeReady st with
                 | Some b => Fulfilled b
                 | None => Pending
                 end).

(** [invariant(self.controller, message)], giving the controller. *)
Definition invariant_controller (message : string) : Async ReadonlyWasmController :=
  c ← get controller;
  match c with
  | Some c => ret c
  | None => throw (Error message)
  end.

(** The request handler [startSession]. *)
Definition handle_startSession (code appId : string) : Async unit :=
  await_pyodideReady;;
  try_catch
    (c ← invariant_controller "Controller not loaded";
     let filename := "app-" +:+ appId +:+ ".py" in
     emit (CallMountFilesystem code filename);;
     notebook ← await (mountFilesystem c code filename);
     emit (CallStartSession notebook);;
     bridge ← await (startSession c notebook);
     resolve_bridgeReady bridge;;
     send initialized)
    (fun error => send (initializedError (prettyError error)));;
  ret tt.

(** The text that [loadPackages] hands to the installer: the body of
    [if (code.includes("mo.sql")) { ... }]. *)
Definition with_sql_imports (code : string) : string :=
  if includes code "mo.sql" then
    let code := "import pandas" +:+ nl +:+ code in
    let code := "import duckdb" +:+ nl +:+ code in
    let code := "import sqlglot" +:+ nl +:+ code in
    if includes code "polars" then "import pyarrow" +:+ nl +:+ code
    else code
  else code.

(** The request handler [loadPackages]; reading a property of
    [self.pyodide] while it is [undefined] throws a [TypeError]. *)
Definition handle_loadPackages (code : string) : Async unit :=
  await_pyodideReady;;
  let code := with_sql_imports code in
  py ← get pyodide;
  match py with
  | None => throw (TypeError "Cannot read properties of undefined")
  | Some py =>
      emit (CallLoadPackagesFromImports code);;
      await (loadPackagesFromImports py code)
  end.

(** [payloadString] of the handler [bridge]. *)
Definition payloadString (payload : Value) : option string :=
  if nullish payload then None
  else match payload with
       | VString s => Some s
       | _ => JSON_stringify payload
       end.

(** The request handler [bridge]. *)
Definition handle_bridge (functionName : string) (payload : Value) : Async Value :=
  await_pyodideReady;;
  bridge ← await_bridgeReady;
  let payloadString := payloadString payload in
  emit (CallBridge functionName payloadString);;
  response ← await (bridge functionName payloadString);
  match response with
  | VString text =>
      match JSON_parse text with
      | Some v => ret v
      | None => throw (SyntaxError "JSON.parse")
      end
  | _ => ret response
  end.

(** ** The worker as a state machine *)
Inductive Request :=
| startSession_request (code appId : string)
| loadPackages_request (code : string)
| bridge_request (functionName : string) (payload : Value).

Definition step (r : Request) (st : State) : State :=
  match r with
  | startSession_request code appId => fst (handle_startSession code appId st)
  | loadPackages_request code => fst (handle_loadPackages code st)
  | bridge_request functionName payload => fst (handle_bridge functionName payload st)
  end.

(** The states of a worker named [name]: the state after the module
    body, and from there a request handled as far as it gets, or, for
    handlers that are in flight at the same time and take turns at their
    [await]s, one action of a resumed handler: an event, or the resolution
    of the bridge handle. *)
Inductive reachable (name : string) : State -> Prop :=
| reachable_main : reachable name (main name)
| reachable_step st r : reachable name st -> reachable name (step r st)
| reachable_log st ev : reachable name st -> reachable name (log ev st)
| reachable_resolve st bridge : reachable name st -> reachable name (resolve bridge st).

(** A stage of [startSession] after the bootstrap fails with [e]: the
    controller check, the filesystem mount, or the session start. *)
Inductive StageFailure (code filename : string) (st : State) (e : JsError) : Prop :=
| fails_invariant :
    controller st = None -> e = Error "Controller not loaded" ->
    StageFailure code filename st e
| fails_mountFilesystem c :
    controller st = Some c -> mountFilesystem c code filename = Rejected e ->
    StageFailure code filename st e
| fails_startSession c notebook :
    controller st = Some c ->
    mountFilesystem c code filename = Fulfilled notebook ->
    startSession c notebook = Rejected e ->
    StageFailure code filename st e.

(** The states reached when the requests are handled one after the
    other, each from the state the one before left. *)
Inductive handled (name : string) : State -> Prop :=
| handled_main : handled name (main name)
| handled_step st r : handled name st -> handled name (step r st).

End Handlers.

(** The messages sent, in order. *)
Definition sent (st : State) : list Message :=
  omap (fun ev => match ev with Send m => Some m | _ => None end) (trace st).

Definition is_initializedError (m : Message) : bool :=
  match m with
  | initializedError _ => true
  | _ => false
  end.

(** [code] with the lines [ls] put before it, top to bottom. *)
Definition prepend_lines (ls : list string) (code : string) : string :=
  foldr (fun l text => l +:+ nl +:+ text) code ls.

(** ** A sample world *)

Definition sample_prettyError (e : JsError) : string :=
  match e with
  | Error m | TypeError m | SyntaxError m => m
  end.

Definition sample_getPyodideVersion (marimoVersion : string) : string := "0.27.7".

Definition sample_pyodide : PyodideInterface :=
  {| loadPackagesFromImports := fun _ => Fulfilled tt |}.

(** A bridge with three functions: [echo] answers its argument as a
    string, [count] answers a number, [fail] rejects. *)
Definition sample_bridge : SerializedBridge :=
  fun functionName argument =>
    if String.eqb functionName "echo" then
      Fulfilled (match argument with Some a => VString a | None => VUndefined end)
    else if String.eqb functionName "count" then Fulfilled (VNumber "3")
    else Rejected (Error "failed").

(** A controller all of whose methods succeed. *)
Definition working_controller : ReadonlyWasmController :=
  {| bootstrap := fun _ _ => Fulfilled sample_pyodide;
     mountFilesystem := fun code filename =>
       Fulfilled (VObject [("code", VString code); ("filename", VString filename)]);
     startSession := fun _ => Fulfilled sample_bridge |}.

(** A controller whose interpreter does not load. *)
Definition failing_controller : ReadonlyWasmController :=
  {| bootstrap := fun _ _ => Rejected (Error "pyodide failed to load");
     mountFilesystem := fun _ _ => Rejected (Error "no filesystem");
     startSession := fun _ => Rejected (Error "no session") |}.

(** A controller that boots and mounts, but whose session does not
    start. *)
Definition sessionless_controller : ReadonlyWasmController :=
  {| bootstrap := fun _ _ => Fulfilled sample_pyodide;
     mountFilesystem := fun code filename => Fulfilled (VObject []);
     startSession := fun _ => Rejected (Error "no session") |}.

(** A controller whose bootstrap never settles. *)
Definition stalled_controller : ReadonlyWasmController :=
  {| bootstrap := fun _ _ => Pending;
     mountFilesystem := fun code filename => Fulfilled (VObject []);
     startSession := fun _ => Fulfilled sample_bridge |}.

(** An interpreter whose installer fails. *)
Definition offline_pyodide : PyodideInterface :=
  {| loadPackagesFromImports := fun _ => Rejected (Error "offline") |}.

(** A controller that boots into [offline_pyodide]. *)
Definition offline_controller : ReadonlyWasmController :=
  {| bootstrap := fun _ _ => Fulfilled offline_pyodide;
     mountFilesystem := fun code filename => Fulfilled (VObject []);
     startSession := fun _ => Fulfilled sample_bridge |}.

End Worker.

(** Unfolds the sequencing of an asynchronous body. *)
Ltac async_unfold :=
  unfold Worker.invariant_controller, Worker.resolve_bridgeReady, Worker.send,
    Worker.emit, Worker.await_pyodideReady, Worker.await_bridgeReady in *;
  unfold mbind, mret, Worker.Async_bind, Worker.Async_ret in *;
  unfold Worker.bind, Worker.try_catch, Worker.modify, Worker.get, Worker.await,
    Worker.throw, Worker.ret in *.

(* ===================================================================== *)
(** * Properties of the grid layout handlers *)
(* ===================================================================== *)

Section GridProperties.
Import Grid.

Lemma ids_filter_sub (P : Item.t → Prop) `{!∀ c, Decision (P c)} (cs : list Item.t) k :
  k ∈ ids (filter P cs) → k ∈ ids cs.
Proof.
  unfold ids. rewrite !list_elem_of_fmap.
  intros (c & -> & Hc). apply list_elem_of_filter in Hc. exists c. tauto.
Qed.

Lemma NoDup_ids_filter (P : Item.t → Prop) `{!∀ c, Decision (P c)} (cs : list Item.t) :
  NoDup (ids cs) → NoDup (ids (filter P cs)).
Proof.
  induction cs as [|c cs IH]; simpl; [done|].
  rewrite NoDup_cons. intros [Hc Hcs].
  rewrite filter_cons. destruct (decide (P c)); [|by apply IH].
  simpl. apply NoDup_cons. split; [|by apply IH].
  intros Hin. apply Hc. by apply ids_filter_sub in Hin.
Qed.

Lemma inGridIds_spec (layout : GridLayout) (k : CellId) :
  k ∈ inGridIds layout ↔ ∃ c, c ∈ cells layout ∧ Item.i c = k.
Proof.
  unfold inGridIds. rewrite elem_of_list_to_set, list_elem_of_fmap.
  split; intros (c & H1 & H2); exists c; auto.
Qed.

Lemma truthy_or_else (n d : Q) : Js.truthy n = true → Js.or_else n d = n.
Proof. unfold Js.or_else. by intros ->. Qed.



(** ** Toggling the docking side *)

Lemma handleSetSide_same (layout : GridLayout) (cellId : CellId)
    (side : GridLayoutCellSide) :
  cellSide layout !! cellId = Some side →
  cellSide (handleSetSide layout cellId side) = delete cellId (cellSide layout).
Proof. unfold handleSetSide; simpl. intros ->. by rewrite decide_True. Qed.

Lemma handleSetSide_other (layout : GridLayout) (cellId : CellId)
    (side : GridLayoutCellSide) :
  cellSide layout !! cellId ≠ Some side →
  cellSide (handleSetSide layout cellId side) = <[cellId := side]> (cellSide layout).
Proof. unfold handleSetSide; simpl. intros Hne. by rewrite decide_False. Qed.

(** C8.  Setting the docking side of a cell to the side it already has
    removes the cell's entry from the side mapping, setting any other
    side stores it, and no other field of the document changes; so
    setting the same side twice on a cell without an entry leaves the
    cell without an entry (and the whole mapping as it was). *)
Theorem handleSetSide_toggle (layout : GridLayout) (cellId : CellId)
    (side : GridLayoutCellSide) :
  let layout1 := handleSetSide layout cellId side in
  let layout2 := handleSetSide layout1 cellId side in
  (cellSide layout !! cellId = Some side →
     cellSide layout1 = delete cellId (cellSide layout)
     ∧ cellSide layout1 !! cellId = None) ∧
  (cellSide layout !! cellId ≠ Some side →
     cellSide layout1 = <[cellId := side]> (cellSide layout)
     ∧ cellSide layout1 !! cellId = Some side) ∧
  (cellSide layout !! cellId = None →
     cellSide layout2 !! cellId = None ∧ cellSide layout2 = cellSide layout) ∧
  (columns layout1, rowHeight layout1, maxWidth layout1, bordered layout1,
   cells layout1, scrollableCells layout1)
  = (columns layout, rowHeight layout, maxWidth layout, bordered layout,
     cells layout, scrollableCells layout).
Proof.
  intros layout1 layout2.
  assert (Hnone : cellSide layout !! cellId = None →
                  cellSide layout1 !! cellId = Some side).
  { intros Hn. unfold layout1.
    rewrite handleSetSide_other by (by rewrite Hn). apply lookup_insert_eq. }
  split; [|split; [|split]]; [| | |done].
  - intros Hsame. split; [by apply handleSetSide_same|].
    unfold layout1. rewrite handleSetSide_same by done. apply lookup_delete_eq.
  - intros Hne. split; [by apply handleSetSide_other|].
    unfold layout1. rewrite handleSetSide_other by done. apply lookup_insert_eq.
  - intros Hn. specialize (Hnone Hn).
    assert (E : cellSide layout2 = cellSide layout).
    { unfold layout2. rewrite handleSetSide_same by done.
      unfold layout1. rewrite handleSetSide_other by (by rewrite Hn).
      rewrite delete_insert_eq. by apply delete_id. }
    by rewrite E.
Qed.

(** ** Deleting a placed cell *)

(** C9.  Deleting a notebook cell from the grid gives a document with no
    placed entry of that id, in which the cell belongs to the derived
    tray list; the other placed entries and all other fields of the
    document are as before. *)
Theorem onDelete_unplaced (layout : GridLayout) (notebook : list NotebookCell)
    (cell : NotebookCell) :
  cell ∈ notebook →
  let layout' := onDelete layout (id cell) in
  ((∀ c, c ∈ cells layout' → Item.i c ≠ id cell) ∧
  (id cell ∉ inGridIds layout') ∧
  cell ∈ notInGrid layout' notebook ∧
  (∀ c, Item.i c ≠ id cell → (c ∈ cells layout' ↔ c ∈ cells layout)) ∧
  (columns layout', rowHeight layout', maxWidth layout', bordered layout',
   scrollableCells layout', cellSide layout')
  = (columns layout, rowHeight layout, maxWidth layout, bordered layout,
     scrollableCells layout, cellSide layout)).
Proof.
  intros Hcell layout'.
  assert (Hgone : ∀ c, c ∈ cells layout' → Item.i c ≠ id cell).
  { intros c Hc. unfold layout', onDelete in Hc; simpl in Hc.
    by apply list_elem_of_filter in Hc as [? _]. }
  assert (Hout : id cell ∉ inGridIds layout').
  { rewrite inGridIds_spec. intros (c & Hc & Heq). by apply (Hgone c). }
  repeat split; try done.
  - unfold notInGrid. apply list_elem_of_filter. by split.
  - unfold layout', onDelete; simpl. intros Hc.
    by apply list_elem_of_filter in Hc as [_ ?].
  - unfold layout', onDelete; simpl. intros Hc.
    apply list_elem_of_filter. by split.
Qed.

(** ** Uniqueness of the placed ids *)

(** C4 (as amended).  Deleting a cell preserves the uniqueness of the
    placed ids.  The layout-change callback stores the list it is given
    unchanged, so a reposition or resize, which hands over the placed
    cells under their ids, preserves it too.  The drop handler stores the
    list it is given with the dropped item appended, without a check of
    the ids: the new document has unique ids exactly when the list given
    has unique ids and does not already hold the id of the dropped item.
    So the drop of a cell that is not placed preserves the uniqueness when
    the list given holds the placed cells, and a list that already holds
    the dropped item gives a document with that id twice. *)
Theorem unique_ids_operations (layout : GridLayout) (cellId : CellId)
    (cellLayouts : list Item.t) (dropped : Item.t) :
  (unique_ids layout → unique_ids (onDelete layout cellId)) ∧
  (onLayoutChange layout cellLayouts = with_cells layout cellLayouts ∧
   cells (onLayoutChange layout cellLayouts) = cellLayouts ∧
   (unique_ids (onLayoutChange layout cellLayouts) ↔ NoDup (ids cellLayouts)) ∧
   (ids cellLayouts ≡ₚ ids (cells layout) → unique_ids layout →
    unique_ids (onLayoutChange layout cellLayouts))) ∧
  (∃ layout', onDrop layout cellLayouts (Some dropped) = Some layout' ∧
     cells layout' = cellLayouts ++ [dropped] ∧
     (unique_ids layout' ↔
        NoDup (ids cellLayouts) ∧ Item.i dropped ∉ ids cellLayouts) ∧
     (ids cellLayouts ≡ₚ ids (cells layout) → unique_ids layout →
      Item.i dropped ∉ ids (cells layout) → unique_ids layout') ∧
     (Item.i dropped ∈ ids cellLayouts → ¬ unique_ids layout')).
Proof.
  assert (Hdrop : unique_ids (with_cells layout (cellLayouts ++ [dropped])) ↔
                  NoDup (ids cellLayouts) ∧ Item.i dropped ∉ ids cellLayouts).
  { unfold unique_ids, ids; simpl. rewrite fmap_app; simpl.
    rewrite NoDup_app. split.
    - intros (Hl & Hnot & _). split; [done|].
      intros Hin. apply (Hnot _ Hin). apply list_elem_of_here.
    - intros [Hl Hnot]. split; [done|]. split.
      + intros k Hk Hk'. apply list_elem_of_singleton in Hk'. by subst.
      + apply NoDup_singleton. }
  split; [|split].
  - unfold unique_ids, onDelete; simpl. apply NoDup_ids_filter.
  - split; [done|]. split; [done|]. split; [done|].
    unfold unique_ids, onLayoutChange; simpl. by intros ->.
  - eexists. split; [reflexivity|]. split; [reflexivity|].
    split; [done|]. split.
    + intros Hperm Huniq Hfresh. apply Hdrop. unfold unique_ids in Huniq.
      rewrite Hperm. by split.
    + intros Hin Huniq. apply Hdrop in Huniq as [_ Hnot]. by apply Hnot.
Qed.

(** ** Dropping a tray cell *)



End GridProperties.

(** ** The grid properties on the sample document *)

Lemma handleSetSide_toggle_witness :
  let once := Grid.handleSetSide Grid.layout_ab "a" Grid.side_right in
  let twice := Grid.handleSetSide once "a" Grid.side_right in
  (Grid.cellSide (Grid.handleSetSide Grid.layout_ab "b" Grid.side_left) !! "b" = None) ∧
  (Grid.cellSide once !! "a" = Some Grid.side_right) ∧
  (Grid.cellSide twice !! "a" = None ∧ Grid.cellSide twice = Grid.cellSide Grid.layout_ab).
Proof.
  split; [|split].
  - apply (handleSetSide_toggle Grid.layout_ab "b" Grid.side_left). reflexivity.
  - apply (handleSetSide_toggle Grid.layout_ab "a" Grid.side_right). discriminate.
  - apply (handleSetSide_toggle Grid.layout_ab "a" Grid.side_right). reflexivity.
Defined.

Lemma onDelete_unplaced_witness :
  Grid.cell_a ∈ Grid.notInGrid (Grid.onDelete Grid.layout_ab "a")
                               [Grid.cell_a; Grid.cell_b; Grid.cell_c].
Proof.
  apply (onDelete_unplaced Grid.layout_ab [Grid.cell_a; Grid.cell_b; Grid.cell_c] Grid.cell_a).
  apply list_elem_of_here.
Defined.

Lemma unique_ids_layout_ab : Grid.unique_ids Grid.layout_ab.
Proof.
  unfold Grid.unique_ids; simpl.
  apply NoDup_cons; split; [|apply NoDup_singleton].
  intros H. apply list_elem_of_singleton in H. discriminate.
Qed.

Lemma ids_layout_ab_without_c : "c" ∉ Grid.ids (Grid.cells Grid.layout_ab).
Proof.
  intros Hin. apply elem_of_cons in Hin as [?|Hin]; [discriminate|].
  apply list_elem_of_singleton in Hin. discriminate.
Qed.

Lemma unique_ids_operations_witness :
  Grid.unique_ids (Grid.onDelete Grid.layout_ab "a") ∧
  Grid.unique_ids
    (Grid.onLayoutChange Grid.layout_ab
       [Grid.Item.mk "b" 0 0 3 2; Grid.Item.mk "a" 3 0 3 2]) ∧
  Grid.unique_ids
    (Grid.with_cells Grid.layout_ab ([Grid.item_a; Grid.item_b] ++ [Grid.item_c])).
Proof.
  destruct (unique_ids_operations Grid.layout_ab "a"
              [Grid.Item.mk "b" 0 0 3 2; Grid.Item.mk "a" 3 0 3 2] Grid.item_c)
    as (Hdelete & (_ & _ & _ & Hmove) & _).
  destruct (unique_ids_operations Grid.layout_ab "a"
              [Grid.item_a; Grid.item_b] Grid.item_c)
    as (_ & _ & layout' & Heq & _ & _ & Hdrop & _).
  injection Heq as <-.
  split; [apply Hdelete, unique_ids_layout_ab|]. split.
  - apply Hmove; [apply Permutation_swap|apply unique_ids_layout_ab].
  - apply Hdrop; [done|apply unique_ids_layout_ab|apply ids_layout_ab_without_c].
Defined.

(** C4, as stated, fails for a drop.  In the sample document [a] and [b]
    are placed with unique ids and the cell [c] is in the tray.  When [c]
    is dropped and the list given to the handler holds the placed cells
    and the item being dropped (a list with unique ids), the handler
    appends the dropped item once more: the new document holds the id
    [c] twice. *)
Lemma onDrop_duplicates_id :
  let notebook := [Grid.cell_a; Grid.cell_b; Grid.cell_c] in
  let cellLayouts := [Grid.item_a; Grid.item_b; Grid.item_c] in
  Grid.unique_ids Grid.layout_ab ∧
  Grid.notInGrid Grid.layout_ab notebook = [Grid.cell_c] ∧
  Grid.id Grid.cell_c = Grid.Item.i Grid.item_c ∧
  (∀ item, item ∈ Grid.cells Grid.layout_ab → item ∈ cellLayouts) ∧
  NoDup (Grid.ids cellLayouts) ∧
  ∃ layout', Grid.onDrop Grid.layout_ab cellLayouts (Some Grid.item_c) = Some layout' ∧
             Grid.ids (Grid.cells layout') = ["a"; "b"; "c"; "c"] ∧
             ¬ Grid.unique_ids layout'.
Proof.
  intros notebook cellLayouts.
  split; [apply unique_ids_layout_ab|]. split; [reflexivity|]. split; [done|].
  split.
  { intros item Hitem.
    apply (elem_of_app [Grid.item_a; Grid.item_b] [Grid.item_c]). by left. }
  split.
  { apply (NoDup_app ["a"; "b"] ["c"]).
    split; [apply unique_ids_layout_ab|]. split; [|apply NoDup_singleton].
    intros k Hk Hk'. apply list_elem_of_singleton in Hk' as ->.
    by apply ids_layout_ab_without_c. }
  eexists. split; [reflexivity|]. split; [reflexivity|].
  unfold Grid.unique_ids; simpl. intros H.
  apply NoDup_cons in H as [_ H]. apply NoDup_cons in H as [_ H].
  apply NoDup_cons in H as [H _]. apply H, list_elem_of_here.
Qed.


(* ===================================================================== *)
(** * Properties of the worker *)
(* ===================================================================== *)

(** ** The imports put before the code by [loadPackages] *)

Section Imports.
Import Js Worker.

(** The three lines put before code that mentions [mo.sql], top to
    bottom, and the line put before them for [polars]. *)
Lemma with_sql_imports_unfold (code : string) :
  with_sql_imports code =
  if includes code "mo.sql" then
    if includes code "polars"
    then prepend_lines ["import pyarrow"; "import sqlglot"; "import duckdb";
                        "import pandas"] code
    else prepend_lines ["import sqlglot"; "import duckdb"; "import pandas"] code
  else code.
Proof.
  unfold with_sql_imports. destruct (includes code "mo.sql"); [|done].
  (* none of the three lines holds the marker, nor does a line end *)
  change (includes ("import sqlglot" +:+ nl +:+ "import duckdb" +:+ nl +:+
                    "import pandas" +:+ nl +:+ code) "polars")
    with (includes code "polars").
  by destruct (includes code "polars").
Qed.

(** What [loadPackages] does in every state: it waits for the bootstrap
    promise, and then calls the installer of [self.pyodide] with the
    text of [with_sql_imports]. *)
Lemma handle_loadPackages_run (code : string) (st : State) :
  handle_loadPackages code st =
  match pyodideReadyPromise st with
  | Fulfilled _ =>
      match pyodide st with
      | Some py =>
          (log (CallLoadPackagesFromImports (with_sql_imports code)) st,
           loadPackagesFromImports py (with_sql_imports code))
      | None => (st, Rejected (TypeError "Cannot read properties of undefined"))
      end
  | Rejected e => (st, Rejected e)
  | Pending => (st, Pending)
  end.
Proof.
  unfold handle_loadPackages. async_unfold.
  destruct (pyodideReadyPromise st); [|done..].
  by destruct (pyodide st).
Qed.

(** The installer calls that [loadPackages] adds to the trace. *)
Lemma handle_loadPackages_trace (code : string) (st : State) :
  trace (fst (handle_loadPackages code st)) = trace st ∨
  trace (fst (handle_loadPackages code st))
  = trace st ++ [CallLoadPackagesFromImports (with_sql_imports code)].
Proof.
  rewrite handle_loadPackages_run.
  destruct (pyodideReadyPromise st); [|by left..].
  destruct (pyodide st); [by right|by left].
Qed.

(** C2 (as amended).  For code that contains [mo.sql] and does not
    contain [polars], the text handed to the installer is the code with
    exactly three import lines before it, which read from top to bottom:
    [import sqlglot], [import duckdb], [import pandas]; the code follows
    unchanged.  Once the bootstrap promise is fulfilled and the
    interpreter is set, the handler calls the installer with that text. *)
Theorem loadPackages_sql_imports (code : string) :
  includes code "mo.sql" = true → includes code "polars" = false →
  let text := prepend_lines ["import sqlglot"; "import duckdb"; "import pandas"] code in
  with_sql_imports code = text ∧
  text = "import sqlglot" +:+ nl +:+ "import duckdb" +:+ nl +:+
         "import pandas" +:+ nl +:+ code ∧
  ∀ st py, pyodideReadyPromise st = Fulfilled tt → pyodide st = Some py →
    handle_loadPackages code st
    = (log (CallLoadPackagesFromImports text) st, loadPackagesFromImports py text).
Proof.
  intros Hsql Hpolars text.
  assert (E : with_sql_imports code = text).
  { by rewrite with_sql_imports_unfold, Hsql, Hpolars. }
  split; [done|]. split; [done|].
  intros st py Hready Hpy.
  by rewrite handle_loadPackages_run, Hready, Hpy, E.
Qed.

(** C5.  For code that contains both [mo.sql] and [polars], the text
    handed to the installer is the code with exactly four import lines
    before it, of which [import pyarrow] is the first; the three others
    and then the unchanged code follow.  Once the bootstrap promise is
    fulfilled and the interpreter is set, the handler calls the installer
    with that text. *)
Theorem loadPackages_polars_imports (code : string) :
  includes code "mo.sql" = true → includes code "polars" = true →
  let others := ["import sqlglot"; "import duckdb"; "import pandas"] in
  let text := prepend_lines ("import pyarrow" :: others) code in
  with_sql_imports code = text ∧
  text = "import pyarrow" +:+ nl +:+ prepend_lines others code ∧
  startsWith text ("import pyarrow" +:+ nl) = true ∧
  ∀ st py, pyodideReadyPromise st = Fulfilled tt → pyodide st = Some py →
    handle_loadPackages code st
    = (log (CallLoadPackagesFromImports text) st, loadPackagesFromImports py text).
Proof.
  intros Hsql Hpolars others text.
  assert (E : with_sql_imports code = text).
  { by rewrite with_sql_imports_unfold, Hsql, Hpolars. }
  split; [done|]. split; [done|]. split; [done|].
  intros st py Hready Hpy.
  by rewrite handle_loadPackages_run, Hready, Hpy, E.
Qed.

(** C10.  For code that does not contain [mo.sql], whether or not it
    contains [polars], no import is put before the code: the only
    installer call that the handler can add to the trace has the code
    itself as its text, and once the bootstrap promise is fulfilled and
    the interpreter is set the handler makes that call. *)
Theorem loadPackages_without_sql (code : string) :
  includes code "mo.sql" = false →
  with_sql_imports code = code ∧
  (∀ st, trace (fst (handle_loadPackages code st)) = trace st ∨
         trace (fst (handle_loadPackages code st))
         = trace st ++ [CallLoadPackagesFromImports code]) ∧
  ∀ st py, pyodideReadyPromise st = Fulfilled tt → pyodide st = Some py →
    handle_loadPackages code st
    = (log (CallLoadPackagesFromImports code) st, loadPackagesFromImports py code).
Proof.
  intros Hsql.
  assert (E : with_sql_imports code = code).
  { by rewrite with_sql_imports_unfold, Hsql. }
  split; [done|]. split.
  - intros st. rewrite <- E at 3. apply handle_loadPackages_trace.
  - intros st py Hready Hpy.
    by rewrite handle_loadPackages_run, Hready, Hpy, E.
Qed.

End Imports.

(** C2, as stated, fails: for the code [df = mo.sql(q)], which holds the
    SQL marker and not [polars], the text handed to the installer is not
    the code under the lines pandas, duckdb, sqlglot; its first line is
    [import sqlglot] and its third is [import pandas]. *)
Lemma loadPackages_sql_imports_order :
  let code := "df = mo.sql(q)" in
  Js.includes code "mo.sql" = true ∧ Js.includes code "polars" = false ∧
  Worker.with_sql_imports code
  ≠ Worker.prepend_lines ["import pandas"; "import duckdb"; "import sqlglot"] code ∧
  Worker.with_sql_imports code
  = Worker.prepend_lines ["import sqlglot"; "import duckdb"; "import pandas"] code.
Proof. repeat split. discriminate. Qed.

Lemma loadPackages_sql_imports_witness :
  let st := Worker.main Worker.sample_prettyError Worker.sample_getPyodideVersion
              Worker.working_controller "0.9.0" in
  let text := Worker.prepend_lines ["import sqlglot"; "import duckdb"; "import pandas"]
                "df = mo.sql(q)" in
  Worker.with_sql_imports "df = mo.sql(q)" = text ∧
  Worker.handle_loadPackages "df = mo.sql(q)" st
  = (Worker.log (Worker.CallLoadPackagesFromImports text) st, Worker.Fulfilled tt).
Proof.
  intros st text.
  destruct (loadPackages_sql_imports "df = mo.sql(q)" eq_refl eq_refl)
    as (Htext & _ & Hcall).
  split; [exact Htext|]. exact (Hcall st Worker.sample_pyodide eq_refl eq_refl).
Defined.

Lemma loadPackages_polars_imports_witness :
  let st := Worker.main Worker.sample_prettyError Worker.sample_getPyodideVersion
              Worker.working_controller "0.9.0" in
  let text := Worker.prepend_lines
                ["import pyarrow"; "import sqlglot"; "import duckdb"; "import pandas"]
                "import polars as pl; mo.sql(q)" in
  Worker.with_sql_imports "import polars as pl; mo.sql(q)" = text ∧
  Worker.handle_loadPackages "import polars as pl; mo.sql(q)" st
  = (Worker.log (Worker.CallLoadPackagesFromImports text) st, Worker.Fulfilled tt).
Proof.
  intros st text.
  destruct (loadPackages_polars_imports "import polars as pl; mo.sql(q)"
              eq_refl eq_refl) as (Htext & _ & _ & Hcall).
  split; [exact Htext|]. exact (Hcall st Worker.sample_pyodide eq_refl eq_refl).
Defined.

Lemma loadPackages_without_sql_witness :
  let st := Worker.main Worker.sample_prettyError Worker.sample_getPyodideVersion
              Worker.working_controller "0.9.0" in
  Worker.with_sql_imports "import polars as pl" = "import polars as pl" ∧
  Worker.handle_loadPackages "import polars as pl" st
  = (Worker.log (Worker.CallLoadPackagesFromImports "import polars as pl") st,
     Worker.Fulfilled tt).
Proof.
  intros st.
  destruct (loadPackages_without_sql "import polars as pl" eq_refl)
    as (Htext & _ & Hcall).
  split; [exact Htext|]. exact (Hcall st Worker.sample_pyodide eq_refl eq_refl).
Defined.

(** ** The session handlers *)

Section Session.
Import Js Worker.

Variable prettyError : JsError → string.
Variable getPyodideVersion : string → string.
Variable theController : ReadonlyWasmController.
Variable JSON_stringify : Value → option string.
Variable JSON_parse : string → option Value.

Local Abbreviation main := (main prettyError getPyodideVersion theController).
Local Abbreviation handle_startSession := (handle_startSession prettyError).
Local Abbreviation handle_bridge := (handle_bridge JSON_stringify JSON_parse).
Local Abbreviation payloadString := (payloadString JSON_stringify).
Local Abbreviation step := (step prettyError JSON_stringify JSON_parse).
Local Abbreviation reachable :=
  (reachable prettyError getPyodideVersion theController JSON_stringify JSON_parse).

(** *** What each routine does *)

(** The state after the module body, by the outcome of the bootstrap. *)
Lemma main_run (name : string) :
  main name =
  match bootstrap theController name (getPyodideVersion name) with
  | Fulfilled py =>
      mkState (Some theController) (Some py) (Fulfilled tt) None [Send ready]
  | Rejected e =>
      mkState (Some theController) None (Fulfilled tt) None
        [Send ready; LogError "Error bootstrapping" e;
         Send (initializedError (prettyError e))]
  | Pending => mkState (Some theController) None Pending None [Send ready]
  end.
Proof.
  unfold Worker.main, loadPyodideAndPackages, set_controller, set_pyodide.
  async_unfold. simpl.
  by destruct (bootstrap theController name (getPyodideVersion name)).
Qed.

(** [startSession] once the bootstrap promise is fulfilled, by the
    outcome of each stage. *)
Lemma handle_startSession_run (code appId : string) (st : State) :
  pyodideReadyPromise st = Fulfilled tt →
  let filename := "app-" +:+ appId +:+ ".py" in
  handle_startSession code appId st =
  match controller st with
  | None =>
      (log (Send (initializedError (prettyError (Error "Controller not loaded")))) st,
       Fulfilled tt)
  | Some c =>
      let st1 := log (CallMountFilesystem code filename) st in
      match mountFilesystem c code filename with
      | Rejected e => (log (Send (initializedError (prettyError e))) st1, Fulfilled tt)
      | Pending => (st1, Pending)
      | Fulfilled notebook =>
          let st2 := log (CallStartSession notebook) st1 in
          match startSession c notebook with
          | Rejected e =>
              (log (Send (initializedError (prettyError e))) st2, Fulfilled tt)
          | Pending => (st2, Pending)
          | Fulfilled bridge => (log (Send initialized) (resolve bridge st2), Fulfilled tt)
          end
      end
  end.
Proof.
  intros Hready filename. unfold Worker.handle_startSession. async_unfold.
  rewrite Hready. simpl. destruct (controller st) as [c|]; [|reflexivity]. simpl.
  fold filename.
  destruct (mountFilesystem c code filename) as [nb| |]; [|reflexivity..].
  simpl. destruct (startSession c nb); reflexivity.
Qed.

(** [startSession] while the bootstrap promise is not fulfilled. *)
Lemma handle_startSession_waits (code appId : string) (st : State) :
  pyodideReadyPromise st ≠ Fulfilled tt →
  handle_startSession code appId st = (st, match pyodideReadyPromise st with
                                           | Rejected e => Rejected e
                                           | _ => Pending
                                           end).
Proof.
  intros Hwait. unfold Worker.handle_startSession. async_unfold.
  by destruct (pyodideReadyPromise st) as [[]| |].
Qed.

(** [bridge] once both awaited promises are fulfilled. *)
Lemma handle_bridge_run (functionName : string) (payload : Value) (st : State)
    (bridge : SerializedBridge) :
  pyodideReadyPromise st = Fulfilled tt → bridgeReady st = Some bridge →
  handle_bridge functionName payload st =
  (log (CallBridge functionName (payloadString payload)) st,
   match bridge functionName (payloadString payload) with
   | Fulfilled (VString text) =>
       match JSON_parse text with
       | Some v => Fulfilled v
       | None => Rejected (SyntaxError "JSON.parse")
       end
   | r => r
   end).
Proof.
  intros Hready Hbridge. unfold Worker.handle_bridge. async_unfold.
  rewrite Hready, Hbridge. simpl.
  destruct (bridge functionName (payloadString payload)) as [[]| |]; try done.
  by destruct (JSON_parse s).
Qed.

(** [bridge] while one of the awaited promises is not fulfilled. *)
Lemma handle_bridge_waits (functionName : string) (payload : Value) (st : State) :
  pyodideReadyPromise st ≠ Fulfilled tt ∨ bridgeReady st = None →
  fst (handle_bridge functionName payload st) = st.
Proof.
  intros Hwait. unfold Worker.handle_bridge. async_unfold.
  destruct (pyodideReadyPromise st) as [[]| |]; try done. simpl.
  destruct Hwait as [?| ->]; done.
Qed.

(** *** What every state of the worker satisfies *)

Lemma fulfilled_or_not (p : Promise unit) : p = Fulfilled tt ∨ p ≠ Fulfilled tt.
Proof. destruct p as [[]| |]; [by left|by right..]. Qed.

Lemma log_fields (ev : Event) (st : State) :
  controller (log ev st) = controller st ∧ pyodide (log ev st) = pyodide st ∧
  pyodideReadyPromise (log ev st) = pyodideReadyPromise st.
Proof. done. Qed.

(** No handler assigns the controller, the interpreter or the bootstrap
    promise. *)
Lemma step_fields (r : Request) (st : State) :
  controller (step r st) = controller st ∧ pyodide (step r st) = pyodide st ∧
  pyodideReadyPromise (step r st) = pyodideReadyPromise st.
Proof.
  destruct r as [code appId|code|functionName payload]; simpl.
  - destruct (fulfilled_or_not (pyodideReadyPromise st)) as [Hready|Hwait].
    + rewrite handle_startSession_run by done.
      destruct (controller st) as [c|] eqn:Hc; [|by rewrite <- Hc].
      rewrite <- Hc. simpl.
      destruct (mountFilesystem c code _) as [nb| |]; [|done..].
      by destruct (startSession c nb).
    + by rewrite handle_startSession_waits.
  - rewrite handle_loadPackages_run.
    destruct (pyodideReadyPromise st) eqn:Hp; rewrite <- ?Hp; [|done..].
    by destruct (pyodide st) eqn:Hpy; rewrite <- ?Hpy.
  - destruct (fulfilled_or_not (pyodideReadyPromise st)) as [Hready|Hwait].
    + destruct (bridgeReady st) as [b|] eqn:Hb.
      * by rewrite (handle_bridge_run _ _ _ b).
      * rewrite handle_bridge_waits; auto.
    + rewrite handle_bridge_waits; auto.
Qed.

(** In every state of the worker, the controller is the one constructed
    by the bootstrap routine, and the interpreter and the bootstrap
    promise are as the module body left them. *)
Lemma reachable_fields (name : string) (st : State) :
  reachable name st →
  controller st = Some theController ∧ pyodide st = pyodide (main name) ∧
  pyodideReadyPromise st = pyodideReadyPromise (main name).
Proof.
  induction 1 as [|st r Hst IH|st ev Hst IH|st b Hst IH].
  - split; [|done]. rewrite main_run.
    by destruct (bootstrap theController name (getPyodideVersion name)).
  - by destruct (step_fields r st) as (-> & -> & ->).
  - done.
  - done.
Qed.

(** The bootstrap promise is never rejected: the routine catches the
    failure of the bootstrap. *)
Lemma pyodideReadyPromise_not_rejected (name : string) (st : State) (e : JsError) :
  reachable name st → pyodideReadyPromise st ≠ Rejected e.
Proof.
  intros Hst. destruct (reachable_fields name st Hst) as (_ & _ & ->).
  rewrite main_run.
  by destruct (bootstrap theController name (getPyodideVersion name)).
Qed.

(** *** The messages of a state *)

Lemma sent_log_Send (m : Message) (st : State) :
  sent (log (Send m) st) = sent st ++ [m].
Proof. unfold sent, log; simpl. by rewrite omap_app. Qed.

Lemma sent_log_other (ev : Event) (st : State) :
  (∀ m, ev ≠ Send m) → sent (log ev st) = sent st.
Proof.
  intros Hev. unfold sent, log; simpl. rewrite omap_app; simpl.
  destruct ev; try by rewrite app_nil_r. by destruct (Hev m).
Qed.

(** *** [startSession] *)

(** C6.  In no state of the worker is the promise of [startSession]
    rejected.  Once the bootstrap promise is fulfilled: if a stage of the
    handler fails (the controller check, the filesystem mount or the
    session start), the handler returns normally, the one message it sends
    is [initializedError] with the pretty-printed error, and the bridge
    handle is left as it was; if the mount and the session start succeed,
    the handler resolves the bridge handle, then sends [initialized], and
    returns normally. *)
Theorem startSession_reports_failure (code appId : string) (st : State) :
  let filename := "app-" +:+ appId +:+ ".py" in
  let r := handle_startSession code appId st in
  (∀ name, reachable name st → ∀ e, r.2 ≠ Rejected e) ∧
  (pyodideReadyPromise st = Fulfilled tt →
   (∀ e, r.2 ≠ Rejected e) ∧
   (∀ e, StageFailure code filename st e →
      r.2 = Fulfilled tt ∧
      sent r.1 = sent st ++ [initializedError (prettyError e)] ∧
      bridgeReady r.1 = bridgeReady st) ∧
   (∀ c notebook bridge,
      controller st = Some c →
      mountFilesystem c code filename = Fulfilled notebook →
      startSession c notebook = Fulfilled bridge →
      r.2 = Fulfilled tt ∧
      trace r.1 = trace st ++ [CallMountFilesystem code filename;
                               CallStartSession notebook;
                               ResolveBridge; Send initialized] ∧
      bridgeReady r.1 = Some (default bridge (bridgeReady st)))).
Proof.
  intros filename r.
  assert (Hfulfilled : pyodideReadyPromise st = Fulfilled tt → ∀ e, r.2 ≠ Rejected e).
  { intros Hready e. unfold r. rewrite handle_startSession_run by done.
    destruct (controller st) as [c|]; [|done]. simpl.
    destruct (mountFilesystem c code _) as [nb| |]; [|done..].
    by destruct (startSession c nb). }
  split; [|intros Hready; split; [by apply Hfulfilled|split]].
  - intros name Hst e.
    destruct (fulfilled_or_not (pyodideReadyPromise st)) as [Hready|Hwait];
      [by apply Hfulfilled|].
    unfold r. rewrite handle_startSession_waits by done. simpl.
    pose proof (pyodideReadyPromise_not_rejected name st) as Hnot.
    destruct (pyodideReadyPromise st) as [[]| |]; try done.
    by destruct (Hnot e0 Hst).
  - intros e Hfail. unfold r. rewrite handle_startSession_run by done.
    fold filename.
    destruct Hfail as [Hc ->|c Hc Hmount|c nb Hc Hmount Hstart]; rewrite Hc; simpl.
    + by rewrite sent_log_Send.
    + rewrite Hmount. simpl. by rewrite sent_log_Send, sent_log_other.
    + rewrite Hmount, Hstart. simpl. by rewrite sent_log_Send, !sent_log_other.
  - intros c nb b Hc Hmount Hstart. unfold r.
    rewrite handle_startSession_run by done. fold filename.
    rewrite Hc; simpl. rewrite Hmount, Hstart. simpl.
    split; [done|]. split; [|done]. by rewrite <- !app_assoc.
Qed.

(** *** A failed bootstrap *)

(** C1 (as amended).  If the bootstrap fails, the bootstrap routine
    catches the failure: it sends one [initializedError] message, and the
    bootstrap promise is fulfilled all the same.  In every later state
    of the worker the promise is fulfilled and the interpreter is unset,
    and no call hangs on the promise: [startSession] goes on to the
    filesystem mount, is pending only if the mount or the session start
    is, and reports a failed mount by a further [initializedError]
    message; [loadPackages] goes on to read the unset interpreter and is
    rejected with a [TypeError], without a call of the installer. *)
Theorem bootstrap_failure_is_caught (name : string) (e : JsError) :
  bootstrap theController name (getPyodideVersion name) = Rejected e →
  sent (main name) = [ready; initializedError (prettyError e)] ∧
  pyodideReadyPromise (main name) = Fulfilled tt ∧
  ∀ st, reachable name st →
    pyodideReadyPromise st = Fulfilled tt ∧ pyodide st = None ∧
    (∀ code appId,
       let filename := "app-" +:+ appId +:+ ".py" in
       let r := handle_startSession code appId st in
       (∃ rest, trace r.1 = trace st ++ CallMountFilesystem code filename :: rest) ∧
       (r.2 = Pending ↔
          mountFilesystem theController code filename = Pending ∨
          ∃ notebook, mountFilesystem theController code filename = Fulfilled notebook ∧
                      startSession theController notebook = Pending) ∧
       (∀ e', mountFilesystem theController code filename = Rejected e' →
              r.2 = Fulfilled tt ∧
              sent r.1 = sent st ++ [initializedError (prettyError e')])) ∧
    (∀ code, handle_loadPackages code st
             = (st, Rejected (TypeError "Cannot read properties of undefined"))).
Proof.
  intros Hboot.
  assert (Hmain : main name = mkState (Some theController) None (Fulfilled tt) None
            [Send ready; LogError "Error bootstrapping" e;
             Send (initializedError (prettyError e))]).
  { by rewrite main_run, Hboot. }
  split; [by rewrite Hmain|]. split; [by rewrite Hmain|].
  intros st Hst.
  destruct (reachable_fields name st Hst) as (Hc & Hpy & Hready).
  rewrite Hmain in Hpy, Hready. simpl in Hpy, Hready.
  split; [done|]. split; [done|]. split.
  - intros code appId filename r. unfold r.
    rewrite handle_startSession_run by done. fold filename. rewrite Hc. simpl.
    destruct (mountFilesystem theController code filename) as [nb|e'|] eqn:Hmount.
    + destruct (startSession theController nb) as [b|e'|] eqn:Hstart; simpl.
      * split; [by eexists [_; _; _]; rewrite <- !app_assoc|]. split; [|done].
        split; [done|]. intros [?|(nb' & [= <-] & ?)]; congruence.
      * split; [by eexists [_; _]; rewrite <- !app_assoc|]. split; [|done].
        split; [done|]. intros [?|(nb' & [= <-] & ?)]; congruence.
      * split; [by eexists [_]; rewrite <- !app_assoc|]. split; [|done].
        split; [|done]. intros _. right. by exists nb.
    + simpl. split; [by eexists [_]; rewrite <- !app_assoc|]. split.
      * split; [done|]. intros [?|(nb' & ? & ?)]; congruence.
      * intros e'' [= <-]. by rewrite sent_log_Send, sent_log_other.
    + simpl. split; [by exists []|]. split; [|done]. split; [by left|done].
  - intros code. by rewrite handle_loadPackages_run, Hready, Hpy.
Qed.

(** *** [bridge] *)

(** C3 (as amended).  Once the bootstrap promise is fulfilled and the
    bridge handle resolved, [bridge] calls the named function once: with
    no argument for a payload that is [null] or [undefined], with the
    payload itself for a string, and with [JSON.stringify] of the payload
    otherwise.  A string response that parses as JSON is answered as the
    parsed value, a response that is not a string is answered as it is;
    a string response that does not parse is not answered as it is: the
    promise of the handler is rejected with the [SyntaxError] of
    [JSON.parse]. *)
Theorem bridge_call (functionName : string) (payload : Value) (st : State)
    (bridge : SerializedBridge) :
  pyodideReadyPromise st = Fulfilled tt → bridgeReady st = Some bridge →
  let argument := payloadString payload in
  let r := handle_bridge functionName payload st in
  (nullish payload = true → argument = None) ∧
  (∀ s, payload = VString s → argument = Some s) ∧
  (nullish payload = false → (∀ s, payload ≠ VString s) →
   argument = JSON_stringify payload) ∧
  trace r.1 = trace st ++ [CallBridge functionName argument] ∧
  (∀ text v, bridge functionName argument = Fulfilled (VString text) →
             JSON_parse text = Some v → r.2 = Fulfilled v) ∧
  (∀ text, bridge functionName argument = Fulfilled (VString text) →
           JSON_parse text = None → r.2 = Rejected (SyntaxError "JSON.parse")) ∧
  (∀ v, bridge functionName argument = Fulfilled v →
        (∀ text, v ≠ VString text) → r.2 = Fulfilled v).
Proof.
  intros Hready Hbridge argument r.
  assert (Hr : r = (log (CallBridge functionName argument) st,
                    match bridge functionName argument with
                    | Fulfilled (VString text) =>
                        match JSON_parse text with
                        | Some v => Fulfilled v
                        | None => Rejected (SyntaxError "JSON.parse")
                        end
                    | r => r
                    end)).
  { unfold r. by rewrite (handle_bridge_run _ _ _ bridge). }
  split; [|split; [|split]].
  - unfold argument, Worker.payloadString. by intros ->.
  - by intros s ->.
  - unfold argument, Worker.payloadString. intros -> Hnot.
    destruct payload; try done. by destruct (Hnot s).
  - rewrite Hr. split; [done|]. split; [|split].
    + intros text v Hresp Hparse. simpl. by rewrite Hresp, Hparse.
    + intros text Hresp Hparse. simpl. by rewrite Hresp, Hparse.
    + intros v Hresp Hnot. simpl. rewrite Hresp.
      destruct v; try done. by destruct (Hnot s).
Qed.

End Session.

(** ** The worker properties in the sample world *)

(** C1, as stated, fails: with a controller whose bootstrap is rejected,
    the bootstrap promise is fulfilled, and neither [startSession] nor
    [loadPackages] is left pending; [startSession] goes on to the mount,
    which fails too, and a second [initializedError] message is sent. *)
Lemma bootstrap_failure_does_not_hang :
  let st := Worker.main Worker.sample_prettyError Worker.sample_getPyodideVersion
              Worker.failing_controller "0.9.0" in
  let r := Worker.handle_startSession Worker.sample_prettyError "x = 1" "main" st in
  Worker.bootstrap Worker.failing_controller "0.9.0"
    (Worker.sample_getPyodideVersion "0.9.0")
  = Worker.Rejected (Js.Error "pyodide failed to load") ∧
  Worker.pyodideReadyPromise st ≠ Worker.Pending ∧
  r.2 ≠ Worker.Pending ∧
  (Worker.handle_loadPackages "x = 1" st).2 ≠ Worker.Pending ∧
  Worker.sent r.1 = [Worker.ready;
                     Worker.initializedError "pyodide failed to load";
                     Worker.initializedError "no filesystem"] ∧
  length (filter (λ m, Worker.is_initializedError m = true) (Worker.sent r.1)) ≠ 1.
Proof. repeat split; discriminate. Qed.

Lemma bootstrap_failure_is_caught_witness :
  let st := Worker.main Worker.sample_prettyError Worker.sample_getPyodideVersion
              Worker.failing_controller "0.9.0" in
  Worker.sent st = [Worker.ready; Worker.initializedError "pyodide failed to load"] ∧
  Worker.pyodideReadyPromise st = Worker.Fulfilled tt ∧
  Worker.handle_loadPackages "x = 1" st
  = (st, Worker.Rejected (Js.TypeError "Cannot read properties of undefined")).
Proof.
  destruct (bootstrap_failure_is_caught Worker.sample_prettyError
              Worker.sample_getPyodideVersion Worker.failing_controller
              Json.stringify Json.parse "0.9.0" (Js.Error "pyodide failed to load")
              eq_refl) as (Hsent & Hready & Hlater).
  split; [exact Hsent|]. split; [exact Hready|].
  apply Hlater. apply Worker.reachable_main.
Defined.

Lemma startSession_reports_failure_witness :
  let st := Worker.main Worker.sample_prettyError Worker.sample_getPyodideVersion
              Worker.sessionless_controller "0.9.0" in
  let r := Worker.handle_startSession Worker.sample_prettyError "x = 1" "main" st in
  r.2 = Worker.Fulfilled tt ∧
  Worker.sent r.1 = Worker.sent st ++ [Worker.initializedError "no session"] ∧
  Worker.bridgeReady r.1 = Worker.bridgeReady st.
Proof.
  intros st r.
  destruct (startSession_reports_failure Worker.sample_prettyError
              Worker.sample_getPyodideVersion Worker.sessionless_controller
              Json.stringify Json.parse "x = 1" "main" st) as [_ H].
  destruct (H eq_refl) as (_ & Hfail & _).
  apply (Hfail (Js.Error "no session")).
  by apply (Worker.fails_startSession _ _ _ _ Worker.sessionless_controller
              (Js.VObject [])).
Defined.

(** The state of the sample worker after a session has started. *)
Lemma started_state :
  let st := Worker.step Worker.sample_prettyError Json.stringify Json.parse
              (Worker.startSession_request "x = 1" "main")
              (Worker.main Worker.sample_prettyError Worker.sample_getPyodideVersion
                 Worker.working_controller "0.9.0") in
  Worker.pyodideReadyPromise st = Worker.Fulfilled tt ∧
  Worker.bridgeReady st = Some Worker.sample_bridge ∧
  Worker.sent st = [Worker.ready; Worker.initialized].
Proof. done. Qed.

(** C3, as stated, fails: the sample bridge answers [echo] of the string
    [hello] by the string [hello], which is not JSON; the handler does not
    answer [hello], its promise is rejected. *)
Lemma bridge_unparseable_response_fails :
  let st := Worker.step Worker.sample_prettyError Json.stringify Json.parse
              (Worker.startSession_request "x = 1" "main")
              (Worker.main Worker.sample_prettyError Worker.sample_getPyodideVersion
                 Worker.working_controller "0.9.0") in
  let r := Worker.handle_bridge Json.stringify Json.parse "echo" (Js.VString "hello") st in
  Worker.sample_bridge "echo" (Some "hello") = Worker.Fulfilled (Js.VString "hello") ∧
  Json.parse "hello" = None ∧
  r.2 ≠ Worker.Fulfilled (Js.VString "hello") ∧
  r.2 = Worker.Rejected (Js.SyntaxError "JSON.parse").
Proof. repeat split. discriminate. Qed.

Lemma bridge_call_witness :
  let st := Worker.step Worker.sample_prettyError Json.stringify Json.parse
              (Worker.startSession_request "x = 1" "main")
              (Worker.main Worker.sample_prettyError Worker.sample_getPyodideVersion
                 Worker.working_controller "0.9.0") in
  let payload := Js.VArray [Js.VBool true; Js.VString "hello"] in
  let r := Worker.handle_bridge Json.stringify Json.parse "echo" payload st in
  Worker.payloadString Json.stringify payload = Json.stringify payload ∧
  Worker.trace r.1
  = Worker.trace st ++ [Worker.CallBridge "echo" (Json.stringify payload)] ∧
  r.2 = Worker.Fulfilled payload ∧
  (Worker.handle_bridge Json.stringify Json.parse "count" Js.VNull st).2
  = Worker.Fulfilled (Js.VNumber "3").
Proof.
  intros st payload r.
  destruct (bridge_call Json.stringify Json.parse "echo" payload st
              Worker.sample_bridge eq_refl eq_refl)
    as (_ & _ & Harg & Htrace & Hparsed & _ & _).
  destruct (bridge_call Json.stringify Json.parse "count" Js.VNull st
              Worker.sample_bridge eq_refl eq_refl)
    as (_ & _ & _ & _ & _ & _ & Hverbatim).
  split; [by apply Harg|]. split; [exact Htrace|]. split.
  - by apply (Hparsed (default "" (Json.stringify payload))).
  - by apply Hverbatim.
Defined.

(* ===================================================================== *)
(** * Further properties of the grid layout handlers *)
(* ===================================================================== *)

Section GridLaws.
Import Grid.

(** ** Scrollability *)

Lemma isScrollable_true (layout : GridLayout) (k : CellId) :
  isScrollable layout k = true ↔ k ∈ scrollableCells layout.
Proof. unfold isScrollable. apply bool_decide_eq_true. Qed.

Lemma isScrollable_handleMakeScrollable (layout : GridLayout) (cellId k : CellId)
    (b : bool) :
  isScrollable (handleMakeScrollable layout cellId b) k
  = if decide (k = cellId) then b else isScrollable layout k.
Proof.
  unfold isScrollable, handleMakeScrollable; simpl.
  destruct (decide (k = cellId)) as [->|Hne], b; simpl.
  - apply bool_decide_eq_true. set_solver.
  - apply bool_decide_eq_false. set_solver.
  - apply bool_decide_ext. set_solver.
  - apply bool_decide_ext. set_solver.
Qed.

(** X1.  After [handleMakeScrollable] of a cell, the cell is scrollable
    exactly when the flag given says so, every other cell is as before,
    and doing it again changes nothing; selecting the menu item
    [Scrollable] twice gives back the set of scrollable cells. *)
Theorem handleMakeScrollable_sets_flag (layout : GridLayout) (cellId : CellId)
    (b : bool) :
  let layout' := handleMakeScrollable layout cellId b in
  isScrollable layout' cellId = b ∧
  (∀ k, k ≠ cellId → isScrollable layout' k = isScrollable layout k) ∧
  handleMakeScrollable layout' cellId b = layout' ∧
  scrollableCells (select_scrollable (select_scrollable layout cellId) cellId)
  = scrollableCells layout ∧
  (columns layout', rowHeight layout', maxWidth layout', bordered layout',
   cells layout', cellSide layout')
  = (columns layout, rowHeight layout, maxWidth layout, bordered layout,
     cells layout, cellSide layout).
Proof.
  intros layout'. split; [|split; [|split; [|split; [|done]]]].
  - unfold layout'. rewrite isScrollable_handleMakeScrollable. by rewrite decide_True.
  - intros k Hne. unfold layout'. rewrite isScrollable_handleMakeScrollable.
    by rewrite decide_False.
  - unfold layout', handleMakeScrollable, with_scrollableCells; simpl.
    f_equal. destruct b; set_solver.
  - unfold select_scrollable.
    rewrite isScrollable_handleMakeScrollable, decide_True by done.
    rewrite negb_involutive.
    unfold handleMakeScrollable at 1; simpl.
    destruct (isScrollable layout cellId) eqn:E; simpl.
    + apply isScrollable_true in E. apply set_eq. intros k.
      destruct (decide (k = cellId)) as [->|]; set_solver.
    + assert (cellId ∉ scrollableCells layout).
      { intros Hin. apply isScrollable_true in Hin. congruence. }
      set_solver.
Qed.

(** ** Grid and tray *)

(** X2.  A notebook cell is a child of the grid exactly when some placed
    entry has its id.  Outside read mode every notebook cell is rendered
    once, in the grid or else in the tray, each in the order of the
    notebook.  In read mode there is no tray: the cells rendered are the
    children of the grid, and a cell without a placed entry is not
    rendered at all. *)
Theorem rendered_cells_by_mode (layout : GridLayout) (notebook : list NotebookCell) :
  (∀ cell, cell ∈ inGrid layout notebook ↔
           cell ∈ notebook ∧ ∃ item, item ∈ cells layout ∧ Item.i item = id cell) ∧
  (rendered_tray false layout notebook = Some (notInGrid layout notebook) ∧
   rendered_cells false layout notebook ≡ₚ notebook ∧
   inGrid layout notebook `sublist_of` notebook ∧
   notInGrid layout notebook `sublist_of` notebook ∧
   ∀ cell, cell ∈ notebook →
     (cell ∈ inGrid layout notebook ∧ cell ∉ notInGrid layout notebook) ∨
     (cell ∈ notInGrid layout notebook ∧ cell ∉ inGrid layout notebook)) ∧
  (rendered_tray true layout notebook = None ∧
   rendered_cells true layout notebook = inGrid layout notebook ∧
   ∀ cell, (∀ item, item ∈ cells layout → Item.i item ≠ id cell) →
           cell ∉ rendered_cells true layout notebook).
Proof.
  assert (Hgrid : ∀ cell, cell ∈ inGrid layout notebook ↔
            cell ∈ notebook ∧ ∃ item, item ∈ cells layout ∧ Item.i item = id cell).
  { intros cell. unfold inGrid. rewrite list_elem_of_filter, inGridIds_spec. tauto. }
  assert (Hread : rendered_cells true layout notebook = inGrid layout notebook).
  { unfold rendered_cells, rendered_tray; simpl. apply app_nil_r. }
  split; [done|]. split; [|split; [done|split; [done|]]].
  - split; [done|]. split; [apply filter_app_complement|].
    split; [apply sublist_filter|]. split; [apply sublist_filter|].
    intros cell Hcell. unfold inGrid, notInGrid. rewrite !list_elem_of_filter.
    destruct (decide (id cell ∈ inGridIds layout)); [left|right]; tauto.
  - intros cell Hnone. rewrite Hread, Hgrid. intros (_ & item & Hitem & Hid).
    by apply (Hnone item).
Qed.

Lemma inGridIds_with_cells (layout : GridLayout) (cs : list Item.t) (k : CellId) :
  k ∈ inGridIds (with_cells layout cs) ↔ k ∈ ids cs.
Proof. unfold inGridIds, ids; simpl. apply elem_of_list_to_set. Qed.

(** X3.  A completed drop moves the dropped cell from the tray to the
    grid: in the new document the notebook cell of the dropped id is a
    child of the grid and not in the tray, and any other cell is in the
    tray exactly when the list given by the library does not hold its id.
    A drop without a dropped item does not replace the document. *)
Theorem onDrop_leaves_tray (layout layout' : GridLayout) (cellLayouts : list Item.t)
    (dropped : Item.t) (notebook : list NotebookCell) (cell : NotebookCell) :
  cell ∈ notebook → id cell = Item.i dropped →
  onDrop layout cellLayouts (Some dropped) = Some layout' →
  cell ∈ inGrid layout' notebook ∧
  (cell ∉ notInGrid layout' notebook) ∧
  (∀ c, c ∈ notebook → id c ≠ Item.i dropped →
        (c ∈ notInGrid layout' notebook ↔ id c ∉ ids cellLayouts)) ∧
  onDrop layout cellLayouts None = None.
Proof.
  intros Hcell Hid [= <-].
  assert (Hin : ∀ k, k ∈ inGridIds (with_cells layout (cellLayouts ++ [dropped]))
                     ↔ k ∈ ids cellLayouts ∨ k = Item.i dropped).
  { intros k. rewrite inGridIds_with_cells. unfold ids. rewrite fmap_app.
    rewrite elem_of_app. simpl. by rewrite list_elem_of_singleton. }
  split; [|split; [|split; [|done]]].
  - unfold inGrid. apply list_elem_of_filter. split; [|done]. apply Hin. by right.
  - unfold notInGrid. rewrite list_elem_of_filter. intros [Hnot _].
    apply Hnot, Hin. by right.
  - intros c Hc Hne. unfold notInGrid. rewrite list_elem_of_filter, Hin. tauto.
Qed.

(** ** Deleting *)

Lemma filter_other_ids (cs : list Item.t) (k : CellId) :
  k ∉ ids cs → filter (λ c, Item.i c ≠ k) cs = cs.
Proof.
  induction cs as [|c cs IH]; [done|]. unfold ids; simpl.
  rewrite not_elem_of_cons. intros [Hne Hcs].
  rewrite filter_cons, decide_True by done. f_equal. by apply IH.
Qed.

Lemma length_filter_unique (cs : list Item.t) (k : CellId) :
  NoDup (ids cs) → k ∈ ids cs →
  length (filter (λ c, Item.i c ≠ k) cs) + 1 = length cs.
Proof.
  induction cs as [|c cs IH]; unfold ids; simpl.
  - intros _ Hin. by apply elem_of_nil in Hin.
  - rewrite NoDup_cons, elem_of_cons. intros [Hc Hcs] Hin.
    rewrite filter_cons. destruct (decide (Item.i c ≠ k)) as [Hne|Heq]; simpl.
    + destruct Hin as [->|Hin]; [done|]. rewrite <- (IH Hcs Hin). lia.
    + assert (Item.i c = k) as <- by (by destruct (decide (Item.i c = k))).
      rewrite filter_other_ids by done. lia.
Qed.

(** X4.  Deleting a cell twice is deleting it once, deletions of two
    cells can be done in either order, and deleting a cell that is not
    placed leaves the document as it is.  The entries that stay keep their
    order; in a document with unique ids, deleting a placed cell removes
    exactly one entry. *)
Theorem onDelete_laws (layout : GridLayout) (a b : CellId) :
  onDelete (onDelete layout a) a = onDelete layout a ∧
  onDelete (onDelete layout a) b = onDelete (onDelete layout b) a ∧
  (a ∉ ids (cells layout) → onDelete layout a = layout) ∧
  cells (onDelete layout a) `sublist_of` cells layout ∧
  (unique_ids layout → a ∈ ids (cells layout) →
   length (cells (onDelete layout a)) + 1 = length (cells layout)).
Proof.
  split; [|split; [|split; [|split]]].
  - unfold onDelete, with_cells; simpl. f_equal.
    by apply list_filter_filter_r.
  - unfold onDelete, with_cells; simpl. f_equal.
    rewrite !list_filter_filter. apply list_filter_iff. tauto.
  - intros Hout. unfold onDelete. rewrite filter_other_ids by done.
    by destruct layout.
  - apply sublist_filter.
  - unfold unique_ids, onDelete; simpl. apply length_filter_unique.
Qed.

(** X5.  Dropping an item and then deleting its id gives back the list
    that the library handed to the drop, without the entries of that id:
    the list itself when it did not hold the id.  The other fields of the
    document are those from before the drop. *)
Theorem onDrop_then_onDelete (layout layout' : GridLayout) (cellLayouts : list Item.t)
    (dropped : Item.t) :
  onDrop layout cellLayouts (Some dropped) = Some layout' →
  let layout'' := onDelete layout' (Item.i dropped) in
  cells layout'' = filter (λ c, Item.i c ≠ Item.i dropped) cellLayouts ∧
  (Item.i dropped ∉ ids cellLayouts → cells layout'' = cellLayouts) ∧
  (Item.i dropped ∉ ids cellLayouts → layout'' = onLayoutChange layout cellLayouts) ∧
  (columns layout'', rowHeight layout'', maxWidth layout'', bordered layout'',
   scrollableCells layout'', cellSide layout'')
  = (columns layout, rowHeight layout, maxWidth layout, bordered layout,
     scrollableCells layout, cellSide layout).
Proof.
  intros [= <-] layout''.
  assert (E : cells layout'' = filter (λ c, Item.i c ≠ Item.i dropped) cellLayouts).
  { unfold layout'', onDelete; simpl. rewrite filter_app, filter_cons.
    rewrite decide_False by tauto. by rewrite filter_nil, app_nil_r. }
  split; [done|]. split; [|split; [|done]].
  - intros Hout. rewrite E. by apply filter_other_ids.
  - intros Hout. unfold layout'', onDelete, onLayoutChange, with_cells in *.
    simpl in *. f_equal. rewrite E. by apply filter_other_ids.
Qed.

(** ** The dragged item *)

Lemma or_else_zero (n d : Q) : (n == 0)%Q → Js.or_else n d = d.
Proof.
  intros Hn. unfold Js.or_else, Js.truthy.
  apply Qeq_bool_iff in Hn. by rewrite Hn.
Qed.

Lemma or_else_not_zero (n d : Q) : ¬ (n == 0)%Q → Js.or_else n d = n.
Proof.
  intros Hn. apply truthy_or_else. unfold Js.truthy.
  destruct (Qeq_bool n 0) eqn:E; [|done]. by apply Qeq_bool_iff in E.
Qed.

Lemma number_or_else_spec (o : option Number) :
  placeable (number_or_else o (Finite 2)) ∧
  (∀ v, o = Some v → placeable v → number_or_else o (Finite 2) = v) ∧
  (o = None ∨ o = Some NaN ∨ (∃ q, o = Some (Finite q) ∧ (q == 0)%Q) →
   number_or_else o (Finite 2) = Finite 2).
Proof.
  assert (Htwo : placeable (Finite 2)).
  { split; [done|]. by intros q [= <-]. }
  assert (Htruthy : ∀ v, number_truthy v = true ↔ placeable v).
  { intros [|s|q]; simpl.
    - split; [done|]. by intros [? _].
    - split; [|done]. intros _. by split.
    - unfold Js.truthy. rewrite negb_true_iff. split.
      + intros E. split; [done|]. intros q' [= <-] Hq.
        apply Qeq_bool_iff in Hq. congruence.
      + intros [_ Hq]. destruct (Qeq_bool q 0) eqn:E; [|done].
        apply Qeq_bool_iff in E. by destruct (Hq q). }
  split; [|split].
  - destruct o as [v|]; simpl; [|done].
    destruct (number_truthy v) eqn:E; [by apply Htruthy|done].
  - intros v -> Hv. simpl. apply Htruthy in Hv. by rewrite Hv.
  - intros [->|[->|(q & -> & Hq)]]; simpl; [done..|].
    destruct (Js.truthy q) eqn:E; [|done].
    assert (placeable (Finite q)) as [_ Hne] by (by apply Htruthy).
    by destruct (Hne q).
Qed.

(** X6.  The item handed to the grid library while a cell is dragged
    never has a width or a height that is zero or [NaN]: a width or height
    that is unset, zero or [NaN] is replaced by two, any other (an
    infinity included) is handed over as it is; the id is kept.  Without a
    dragged item nothing is handed over.  On exact numbers this is the
    item of [droppingItem_prop]. *)
Theorem droppingItem_number_defaults (d : Dragged.t) :
  ∃ w h,
    droppingItem_number (Some d) = Some (Dragged.mk (Dragged.i d) (Some w) (Some h)) ∧
    placeable w ∧ placeable h ∧
    (∀ v, Dragged.w d = Some v → placeable v → w = v) ∧
    (∀ v, Dragged.h d = Some v → placeable v → h = v) ∧
    (Dragged.w d = None ∨ Dragged.w d = Some NaN ∨
     (∃ q, Dragged.w d = Some (Finite q) ∧ (q == 0)%Q) → w = Finite 2) ∧
    (Dragged.h d = None ∨ Dragged.h d = Some NaN ∨
     (∃ q, Dragged.h d = Some (Finite q) ∧ (q == 0)%Q) → h = Finite 2) ∧
    droppingItem_number None = None ∧
    ∀ e : Dropping.t,
      droppingItem_number (Some (dragged_of e)) = dragged_of <$> droppingItem_prop (Some e).
Proof.
  exists (number_or_else (Dragged.w d) (Finite 2)),
         (number_or_else (Dragged.h d) (Finite 2)).
  destruct (number_or_else_spec (Dragged.w d)) as (Hw1 & Hw2 & Hw3).
  destruct (number_or_else_spec (Dragged.h d)) as (Hh1 & Hh2 & Hh3).
  split; [done|]. split; [done|]. split; [done|]. split; [done|].
  split; [done|]. split; [done|]. split; [done|]. split; [done|].
  intros [i [w|] [h|]]; unfold dragged_of, droppingItem_number; simpl;
    unfold Js.or_else; repeat destruct (Js.truthy _); done.
Qed.



(** X8.  The width of the dragged item is not rounded: for a whole
    column count it is a whole number of columns exactly when the column
    count is a multiple of four.  The width handed to the grid library is
    that quarter, except for a column count of zero, where it is two. *)
Theorem tray_onDragStart_width (layout : GridLayout) (cell : NotebookCell)
    (height : Z) (c : Z) :
  columns layout = inject_Z c →
  ∃ w, Dropping.w (tray_onDragStart layout cell height) = Some w ∧
       (inject_Z 4 * w == inject_Z c)%Q ∧
       ((∃ k : Z, (w == inject_Z k)%Q) ↔ (4 | c)%Z) ∧
       ∃ w' h',
         droppingItem_prop (Some (tray_onDragStart layout cell height))
         = Some (Dropping.mk (id cell) (Some w') (Some h')) ∧
         w' = if decide (c = 0%Z) then 2%Q else w.
Proof.
  intros Hcols. exists (inject_Z c / 4)%Q.
  assert (Hquarter : (inject_Z 4 * (inject_Z c / 4) == inject_Z c)%Q) by field.
  split; [by unfold tray_onDragStart; rewrite Hcols|]. split; [done|]. split.
  - split.
    + intros [k Hk]. exists k. rewrite Hk, <- inject_Z_mult in Hquarter.
      apply (proj1 (inject_Z_injective _ _)) in Hquarter. lia.
    + intros [k ->]. exists k. rewrite inject_Z_mult. field.
  - eexists _, _. split; [reflexivity|]. simpl. rewrite Hcols.
    destruct (decide (c = 0%Z)) as [->|Hne].
    + by apply or_else_zero.
    + apply or_else_not_zero. intros Hz. apply Hne.
      rewrite Hz, Qmult_0_r in Hquarter.
      symmetry in Hquarter. by apply (proj1 (inject_Z_injective c 0)) in Hquarter.
Qed.

(** ** Docking sides *)

Lemma lookup_handleSetSide (layout : GridLayout) (cellId k : CellId)
    (side : GridLayoutCellSide) :
  cellSide (handleSetSide layout cellId side) !! k
  = if decide (k = cellId)
    then (if decide (cellSide layout !! cellId = Some side) then None else Some side)
    else cellSide layout !! k.
Proof.
  destruct (decide (cellSide layout !! cellId = Some side)) as [Hsame|Hother].
  - rewrite handleSetSide_same by done.
    destruct (decide (k = cellId)) as [->|Hne];
      [apply lookup_delete_eq|by apply lookup_delete_ne].
  - rewrite handleSetSide_other by done.
    destruct (decide (k = cellId)) as [->|Hne];
      [apply lookup_insert_eq|by apply lookup_insert_ne].
Qed.

(** X9.  Setting a side of a cell leaves the sides of all other cells as
    they are.  Setting the same side twice gives back the side mapping
    exactly when the cell had no side or had that side; a cell that had
    another side ends without a side.  Setting one side and then another
    always stores the second. *)
Theorem handleSetSide_twice (layout : GridLayout) (cellId : CellId)
    (side : GridLayoutCellSide) :
  let once := handleSetSide layout cellId side in
  let twice := handleSetSide once cellId side in
  (∀ k, k ≠ cellId → cellSide once !! k = cellSide layout !! k) ∧
  (cellSide twice = cellSide layout ↔
     cellSide layout !! cellId = None ∨ cellSide layout !! cellId = Some side) ∧
  (∀ other, cellSide layout !! cellId = Some other → other ≠ side →
            cellSide twice !! cellId = None) ∧
  (∀ side', side' ≠ side →
            cellSide (handleSetSide once cellId side') !! cellId = Some side').
Proof.
  intros once twice.
  assert (Honce : cellSide once !! cellId
                  = if decide (cellSide layout !! cellId = Some side)
                    then None else Some side).
  { unfold once. by rewrite lookup_handleSetSide, decide_True. }
  assert (Htwice : cellSide twice !! cellId
                   = if decide (cellSide layout !! cellId = Some side)
                     then Some side else None).
  { unfold twice. rewrite lookup_handleSetSide, decide_True by done.
    rewrite Honce. destruct (decide (cellSide layout !! cellId = Some side));
      [by rewrite decide_False|by rewrite decide_True]. }
  split; [|split; [|split]].
  - intros k Hne. unfold once. by rewrite lookup_handleSetSide, decide_False.
  - split.
    + intros E. rewrite E in Htwice.
      destruct (decide (cellSide layout !! cellId = Some side)); auto.
    + intros Hstart. apply map_eq. intros k.
      destruct (decide (k = cellId)) as [->|Hne].
      * rewrite Htwice.
        destruct (decide (cellSide layout !! cellId = Some side)) as [->|];
          [done|]. by destruct Hstart as [->|].
      * unfold twice, once. by rewrite !lookup_handleSetSide, !decide_False.
  - intros other Hother Hne. rewrite Htwice, decide_False; [done|]. congruence.
  - intros side' Hne. rewrite lookup_handleSetSide, decide_True by done.
    rewrite Honce.
    destruct (decide (cellSide layout !! cellId = Some side));
      rewrite decide_False; congruence.
Qed.

(** X10.  Edits of different cells or of different fields can be done in
    either order: setting the sides of two different cells, setting a side
    and a scrollability, setting a side and deleting a cell. *)
Theorem independent_edits_commute (layout : GridLayout) (a b : CellId)
    (s t : GridLayoutCellSide) (scrollable : bool) :
  a ≠ b →
  handleSetSide (handleSetSide layout a s) b t
  = handleSetSide (handleSetSide layout b t) a s ∧
  handleSetSide (handleMakeScrollable layout a scrollable) b t
  = handleMakeScrollable (handleSetSide layout b t) a scrollable ∧
  handleSetSide (onDelete layout a) b t = onDelete (handleSetSide layout b t) a.
Proof.
  intros Hne. split; [|done].
  assert (E : cellSide (handleSetSide (handleSetSide layout a s) b t)
              = cellSide (handleSetSide (handleSetSide layout b t) a s)).
  { apply map_eq. intros k. rewrite !lookup_handleSetSide.
    rewrite (decide_False (P := b = a)), (decide_False (P := a = b)) by congruence.
    destruct (decide (k = b)) as [->|]; [|done].
    by rewrite (decide_False (P := b = a)) by congruence. }
  unfold handleSetSide at 1 3 in E. simpl in E.
  unfold handleSetSide at 1 3. unfold with_cellSide. simpl. by f_equal.
Qed.

(** X11.  The side menu offers the two horizontal sides only, so a side
    mapping that holds only horizontal sides stays so.  After an option is
    selected, the cell either has that side, the trigger shows the icon
    of that option and the option alone is checked; or (the option was
    the cell's side already) the cell has no side, the trigger shows the
    neutral icon and no option is checked. *)
Theorem side_menu_select (layout : GridLayout) (cellId : CellId)
    (option : GridLayoutCellSide) (icon : Icon) :
  (option, icon) ∈ SIDE_TO_ICON →
  let horizontal (m : gmap CellId GridLayoutCellSide) :=
    map_Forall (λ _ side, side = side_left ∨ side = side_right) m in
  let layout' := handleSetSide layout cellId option in
  let side' := cellSide layout' !! cellId in
  (horizontal (cellSide layout) → horizontal (cellSide layout')) ∧
  ((cellSide layout !! cellId ≠ Some option ∧ side' = Some option ∧
    trigger_icon side' = icon ∧ checked_options side' = [option]) ∨
   (cellSide layout !! cellId = Some option ∧ side' = None ∧
    trigger_icon side' = AlignHorizontalSpaceAroundIcon ∧
    checked_options side' = [])).
Proof.
  intros Hoption horizontal layout' side'.
  assert (Hcases : (option = side_left ∧ icon = AlignStartVerticalIcon) ∨
                   (option = side_right ∧ icon = AlignEndVerticalIcon)).
  { unfold SIDE_TO_ICON in Hoption. rewrite !elem_of_cons in Hoption.
    destruct Hoption as [[= -> ->]|[[= -> ->]|Hnil]]; auto.
    by apply elem_of_nil in Hnil. }
  split.
  - intros Hall k side Hk. unfold layout' in Hk.
    rewrite lookup_handleSetSide in Hk.
    destruct (decide (k = cellId)) as [->|]; [|by apply (Hall k)].
    destruct (decide (cellSide layout !! cellId = Some option)); [done|].
    injection Hk as <-. destruct Hcases as [[-> _]|[-> _]]; auto.
  - unfold side', layout'. rewrite lookup_handleSetSide, decide_True by done.
    destruct (decide (cellSide layout !! cellId = Some option)) as [Hsame|Hother].
    + right. done.
    + left. by destruct Hcases as [[-> ->]|[-> ->]].
Qed.

(** ** The maximum width *)

(** X19.  After the maximum width is edited, the grid has either a
    maximum-width style or the minimum-width class, never both and never
    neither.  A value that is not a number and the value zero both show as
    no maximum width (zero is stored, but not applied); any other value is
    applied as it is.  No other field of the document changes. *)
Theorem maxWidth_onChange_style (layout : GridLayout) (valueAsNumber : option Q) :
  let layout' := maxWidth_onChange layout valueAsNumber in
  (styles_maxWidth layout' = None ↔ min_width_class layout' = true) ∧
  (styles_maxWidth layout' = None ↔
     valueAsNumber = None ∨ ∃ v, valueAsNumber = Some v ∧ (v == 0)%Q) ∧
  (∀ v, valueAsNumber = Some v → ¬ (v == 0)%Q →
        styles_maxWidth layout' = Some v ∧ min_width_class layout' = false) ∧
  maxWidth layout' = valueAsNumber ∧
  (columns layout', rowHeight layout', bordered layout', cells layout',
   scrollableCells layout', cellSide layout')
  = (columns layout, rowHeight layout, bordered layout, cells layout,
     scrollableCells layout, cellSide layout).
Proof.
  intros layout'.
  assert (Htruthy : ∀ v, Js.truthy v = false ↔ (v == 0)%Q).
  { intros v. unfold Js.truthy. rewrite negb_false_iff. apply Qeq_bool_iff. }
  unfold layout', maxWidth_onChange, styles_maxWidth, min_width_class; simpl.
  destruct valueAsNumber as [v|]; simpl.
  - destruct (Js.truthy v) eqn:E; simpl.
    + assert (Hv : ¬ (v == 0)%Q) by (rewrite <- Htruthy; congruence).
      split; [done|]. split; [|done].
      split; [done|]. intros [?|(v' & [= <-] & ?)]; done.
    + apply Htruthy in E.
      split; [done|]. split; [|split; [|done]].
      * split; [|done]. intros _. right. by exists v.
      * intros v' [= <-] Hv. done.
  - split; [done|]. split; [|done]. split; [by left|done].
Qed.

End GridLaws.

(* ===================================================================== *)
(** * Further properties of the worker *)
(* ===================================================================== *)

(** ** Text *)

Section Text.
Import Js Worker.

Lemma append_nil_l (s : string) : "" +:+ s = s.
Proof. reflexivity. Qed.

Lemma append_cons (c : ascii) (a s : string) :
  String c a +:+ s = String c (a +:+ s).
Proof. reflexivity. Qed.

Lemma length_append (a b : string) :
  String.length (a +:+ b) = String.length a + String.length b.
Proof.
  induction a as [|c a IH]; [done|].
  rewrite append_cons. simpl. by rewrite IH.
Qed.

Lemma append_cancel_r (a b s : string) : a +:+ s = b +:+ s → a = b.
Proof.
  revert b. induction a as [|c a IH]; intros [|d b] E.
  - done.
  - apply (f_equal String.length) in E.
    rewrite !length_append in E. simpl in E. lia.
  - apply (f_equal String.length) in E.
    rewrite !length_append in E. simpl in E. lia.
  - rewrite !append_cons in E. injection E as -> E. f_equal. by apply IH.
Qed.

Lemma startsWith_spec (s pat : string) :
  startsWith s pat = true ↔ ∃ b, s = pat +:+ b.
Proof.
  revert s. induction pat as [|p pat IH]; intros s.
  - split; [intros _; by exists s|intros _; by destruct s].
  - destruct s as [|c s]; simpl.
    + split; [done|]. intros [b Hb]. by rewrite append_cons in Hb.
    + rewrite andb_true_iff, Ascii.eqb_eq, IH. split.
      * intros [-> [b ->]]. by exists b.
      * intros [b Hb]. rewrite append_cons in Hb. injection Hb as -> ->.
        split; [done|]. by exists b.
Qed.

(** [includes] finds the pattern wherever it stands in the text. *)
Lemma includes_spec (s pat : string) :
  includes s pat = true ↔ ∃ a b, s = a +:+ pat +:+ b.
Proof.
  induction s as [|c s IH].
  - change (includes "" pat) with (startsWith "" pat || false).
    rewrite orb_false_r, startsWith_spec. split.
    + intros [b Hb]. by exists "", b.
    + intros ([|d a] & b & Hab); [by exists b|by rewrite append_cons in Hab].
  - change (includes (String c s) pat)
      with (startsWith (String c s) pat || includes s pat).
    rewrite orb_true_iff, startsWith_spec, IH. split.
    + intros [[b Hb]|(a & b & ->)]; [by exists "", b|by exists (String c a), b].
    + intros ([|d a] & b & Hab); [left; by exists b|].
      right. rewrite append_cons in Hab. injection Hab as -> ->. by exists a, b.
Qed.

Lemma length_prepend_lines (ls : list string) (code : string) :
  String.length (prepend_lines ls code)
  = sum_list (map (λ l, String.length l + 1) ls) + String.length code.
Proof.
  induction ls as [|l ls IH]; [done|].
  change (prepend_lines (l :: ls) code) with (l +:+ nl +:+ prepend_lines ls code).
  rewrite !length_append, IH. simpl. lia.
Qed.

Lemma append_assoc (a b c : string) : (a +:+ b) +:+ c = a +:+ (b +:+ c).
Proof.
  induction a as [|x a IH]; [done|]. rewrite !append_cons. by rewrite IH.
Qed.

(** The lines put before the code form a prefix that does not depend on
    the code. *)
Lemma prepend_lines_prefix (ls : list string) (code : string) :
  prepend_lines ls code = prepend_lines ls "" +:+ code.
Proof.
  induction ls as [|l ls IH]; [done|].
  change (prepend_lines (l :: ls) code) with (l +:+ nl +:+ prepend_lines ls code).
  change (prepend_lines (l :: ls) "") with (l +:+ nl +:+ prepend_lines ls "").
  by rewrite IH, !append_assoc.
Qed.

(** X12.  [loadPackages] puts imports before the code exactly when the
    characters [mo.sql] stand somewhere in it, in whatever context (a
    comment or a string will do); the code it was given is always the end
    of the text it hands to the installer, and the text is longer by 0, 43
    or 58 characters. *)
Theorem sql_imports_trigger (code : string) :
  (with_sql_imports code ≠ code ↔ ∃ a b, code = a +:+ "mo.sql" +:+ b) ∧
  (∃ prefix, with_sql_imports code = prefix +:+ code) ∧
  (String.length (with_sql_imports code) = String.length code ∨
   String.length (with_sql_imports code) = 43 + String.length code ∨
   String.length (with_sql_imports code) = 58 + String.length code).
Proof.
  rewrite <- includes_spec, with_sql_imports_unfold.
  destruct (includes code "mo.sql"); [destruct (includes code "polars")|].
  - split; [|split].
    + split; [done|]. intros _ E. apply (f_equal String.length) in E.
      rewrite length_prepend_lines in E. simpl in E. lia.
    + eexists. apply prepend_lines_prefix.
    + right; right. by rewrite length_prepend_lines.
  - split; [|split].
    + split; [done|]. intros _ E. apply (f_equal String.length) in E.
      rewrite length_prepend_lines in E. simpl in E. lia.
    + eexists. apply prepend_lines_prefix.
    + right; left. by rewrite length_prepend_lines.
  - split; [|split].
    + split; [done|]. intros [=].
    + by exists "".
    + by left.
Qed.

End Text.

(** ** Handlers *)

Section SessionLaws.
Import Js Worker.

Variable prettyError : JsError → string.
Variable getPyodideVersion : string → string.
Variable theController : ReadonlyWasmController.
Variable JSON_stringify : Value → option string.
Variable JSON_parse : string → option Value.

Local Abbreviation main := (main prettyError getPyodideVersion theController).
Local Abbreviation handle_startSession := (handle_startSession prettyError).
Local Abbreviation handle_bridge := (handle_bridge JSON_stringify JSON_parse).
Local Abbreviation payloadString := (payloadString JSON_stringify).
Local Abbreviation step := (step prettyError JSON_stringify JSON_parse).
Local Abbreviation reachable :=
  (reachable prettyError getPyodideVersion theController JSON_stringify JSON_parse).
Local Abbreviation handled :=
  (handled prettyError getPyodideVersion theController JSON_stringify JSON_parse).

Lemma handled_reachable (name : string) (st : State) :
  handled name st → reachable name st.
Proof. induction 1; [apply reachable_main|by apply reachable_step]. Qed.

(** [bridge] in every state. *)
Lemma handle_bridge_cases (functionName : string) (payload : Value) (st : State) :
  handle_bridge functionName payload st =
  match pyodideReadyPromise st with
  | Fulfilled _ =>
      match bridgeReady st with
      | Some bridge =>
          (log (CallBridge functionName (payloadString payload)) st,
           match bridge functionName (payloadString payload) with
           | Fulfilled (VString text) =>
               match JSON_parse text with
               | Some v => Fulfilled v
               | None => Rejected (SyntaxError "JSON.parse")
               end
           | r => r
           end)
      | None => (st, Pending)
      end
  | Rejected e => (st, Rejected e)
  | Pending => (st, Pending)
  end.
Proof.
  destruct (pyodideReadyPromise st) as [[]| |] eqn:Hready.
  - destruct (bridgeReady st) as [b|] eqn:Hb.
    + by apply handle_bridge_run.
    + unfold Worker.handle_bridge. async_unfold. by rewrite Hready, Hb.
  - unfold Worker.handle_bridge. async_unfold. by rewrite Hready.
  - unfold Worker.handle_bridge. async_unfold. by rewrite Hready.
Qed.

(** *** A bootstrap that never settles *)

(** X13.  While the bootstrap never settles, the worker has sent [ready]
    and nothing else, and every request stays pending without any effect:
    no mount, no installer call, no bridge call, no message. *)
Theorem stalled_bootstrap_stalls_requests (name : string) :
  bootstrap theController name (getPyodideVersion name) = Pending →
  sent (main name) = [ready] ∧
  ∀ st, reachable name st →
    (∀ code appId, handle_startSession code appId st = (st, Pending)) ∧
    (∀ code, handle_loadPackages code st = (st, Pending)) ∧
    (∀ functionName payload, handle_bridge functionName payload st = (st, Pending)).
Proof.
  intros Hboot.
  assert (Hmain : main name = mkState (Some theController) None Pending None [Send ready]).
  { by rewrite main_run, Hboot. }
  split; [by rewrite Hmain|]. intros st Hst.
  destruct (reachable_fields _ _ _ _ _ name st Hst) as (_ & _ & Hready).
  rewrite Hmain in Hready. simpl in Hready.
  split; [|split].
  - intros code appId. rewrite handle_startSession_waits; by rewrite Hready.
  - intros code. by rewrite handle_loadPackages_run, Hready.
  - intros functionName payload. by rewrite handle_bridge_cases, Hready.
Qed.

(** *** Messages *)

Lemma sent_resolve (bridge : SerializedBridge) (st : State) :
  sent (resolve bridge st) = sent st.
Proof. unfold resolve. by rewrite sent_log_other. Qed.

(** What a request adds to the messages and does to the bridge handle. *)
Lemma step_sent (r : Request) (st : State) :
  (sent (step r st) = sent st ∧ bridgeReady (step r st) = bridgeReady st) ∨
  (∃ e, sent (step r st) = sent st ++ [initializedError e] ∧
        bridgeReady (step r st) = bridgeReady st) ∨
  (sent (step r st) = sent st ++ [initialized] ∧ is_Some (bridgeReady (step r st))).
Proof.
  destruct r as [code appId|code|functionName payload]; cbn [Worker.step].
  - destruct (fulfilled_or_not (pyodideReadyPromise st)) as [Hready|Hwait].
    + rewrite handle_startSession_run by done.
      destruct (controller st) as [c|]; cbn [fst].
      * destruct (mountFilesystem c code _) as [nb|e|]; cbn [fst].
        -- destruct (startSession c nb) as [b|e|]; cbn [fst].
           ++ right; right.
              by rewrite sent_log_Send, sent_resolve, !sent_log_other.
           ++ right; left. exists (prettyError e).
              by rewrite sent_log_Send, !sent_log_other.
           ++ left. by rewrite !sent_log_other.
        -- right; left. exists (prettyError e).
           by rewrite sent_log_Send, !sent_log_other.
        -- left. by rewrite !sent_log_other.
      * right; left. eexists. by rewrite sent_log_Send.
    + left. by rewrite handle_startSession_waits.
  - left. rewrite handle_loadPackages_run.
    destruct (pyodideReadyPromise st); [|done..].
    destruct (pyodide st); [|done]. cbn [fst]. by rewrite sent_log_other.
  - left. rewrite handle_bridge_cases.
    destruct (pyodideReadyPromise st); [|done..].
    destruct (bridgeReady st) as [b|] eqn:Hb; cbn [fst]; [|done].
    by rewrite sent_log_other.
Qed.

(** [loadPackages] and [bridge] leave the bridge handle as it is. *)
Lemma handlers_keep_bridgeReady (st : State) (code functionName : string)
    (payload : Value) :
  bridgeReady (handle_loadPackages code st).1 = bridgeReady st ∧
  bridgeReady (handle_bridge functionName payload st).1 = bridgeReady st.
Proof.
  rewrite handle_loadPackages_run, handle_bridge_cases.
  destruct (pyodideReadyPromise st); [|done..].
  by destruct (pyodide st), (bridgeReady st) eqn:Hb; cbn [fst]; simpl; rewrite ?Hb.
Qed.

(** X14.  Only [startSession] sends messages: [loadPackages] and
    [bridge] send none in any state, leave the bridge handle as it is, and
    add at most one event, the call they make. *)
Theorem only_startSession_sends (st : State) (code functionName : string)
    (payload : Value) :
  let l := handle_loadPackages code st in
  let b := handle_bridge functionName payload st in
  sent l.1 = sent st ∧ bridgeReady l.1 = bridgeReady st ∧
  (trace l.1 = trace st ∨
   trace l.1 = trace st ++ [CallLoadPackagesFromImports (with_sql_imports code)]) ∧
  sent b.1 = sent st ∧ bridgeReady b.1 = bridgeReady st ∧
  (trace b.1 = trace st ∨
   trace b.1 = trace st ++ [CallBridge functionName (payloadString payload)]).
Proof.
  intros l b. unfold l, b. rewrite handle_loadPackages_run, handle_bridge_cases.
  destruct (pyodideReadyPromise st); [|by repeat split; left..].
  destruct (pyodide st), (bridgeReady st) as [bridge|] eqn:Hb; cbn [fst];
    rewrite ?sent_log_other by done; simpl; rewrite ?Hb;
    repeat split; auto.
Qed.

(** The messages of the module body, and its bridge handle. *)
Lemma main_sent (name : string) :
  (sent (main name) = [ready] ∨ ∃ e, sent (main name) = [ready; initializedError e]) ∧
  bridgeReady (main name) = None.
Proof.
  rewrite main_run.
  destruct (bootstrap theController name (getPyodideVersion name)); simpl;
    (split; [|done]); [by left|right; by eexists|by left].
Qed.

Lemma handled_ready_first (name : string) (st : State) :
  handled name st → ∃ rest, sent st = ready :: rest ∧ ready ∉ rest.
Proof.
  induction 1 as [|st r Hst (rest & E & Hrest)].
  - destruct (main_sent name) as [[->|[e ->]] _]; eexists; (split; [done|]).
    + apply not_elem_of_nil.
    + by intros ?%list_elem_of_singleton.
  - destruct (step_sent r st) as [[-> _]|[(e & -> & _)|[-> _]]].
    + by exists rest.
    + exists (rest ++ [initializedError e]). rewrite E. split; [done|].
      rewrite elem_of_app, list_elem_of_singleton. by intros [?|?].
    + exists (rest ++ [initialized]). rewrite E. split; [done|].
      rewrite elem_of_app, list_elem_of_singleton. by intros [?|?].
Qed.

Lemma handled_initialized_iff (name : string) (st : State) :
  handled name st → initialized ∈ sent st ↔ is_Some (bridgeReady st).
Proof.
  induction 1 as [|st r Hst IH].
  - destruct (main_sent name) as [[->|[e ->]] ->]; split.
    + by intros ?%list_elem_of_singleton.
    + by intros [? ?].
    + rewrite !elem_of_cons. intros [?|[?|?%elem_of_nil]]; done.
    + by intros [? ?].
  - destruct (step_sent r st) as [[-> ->]|[(e & -> & ->)|[-> Hsome]]].
    + done.
    + rewrite <- IH, elem_of_app, list_elem_of_singleton. split; [|tauto].
      by intros [?|?].
    + split; [done|]. intros _. apply elem_of_app. right.
      by apply list_elem_of_singleton.
Qed.

(** X15.  In the states reached by handling requests one after the other,
    [ready] is the first message and is sent once, and [initialized] has
    been sent exactly when the bridge handle is resolved; the module body
    itself sends [ready] and at most one [initializedError]. *)
Theorem messages_of_handled_states (name : string) (st : State) :
  handled name st →
  (∃ rest, sent st = ready :: rest ∧ ready ∉ rest) ∧
  (initialized ∈ sent st ↔ is_Some (bridgeReady st)) ∧
  (sent (main name) = [ready] ∨ ∃ e, sent (main name) = [ready; initializedError e]).
Proof.
  intros Hst. split; [by apply (handled_ready_first name)|].
  split; [by apply (handled_initialized_iff name)|]. apply main_sent.
Qed.

(** *** Bridge calls *)

Lemma handled_bridgeReady_fulfilled (name : string) (st : State) :
  handled name st → is_Some (bridgeReady st) → pyodideReadyPromise st = Fulfilled tt.
Proof.
  induction 1 as [|st r Hst IH].
  - rewrite main_run.
    destruct (bootstrap theController name (getPyodideVersion name));
      simpl; by intros [? ?].
  - destruct (fulfilled_or_not (pyodideReadyPromise st)) as [Hready|Hwait].
    + intros _. by destruct (step_fields prettyError JSON_stringify JSON_parse r st)
        as (_ & _ & ->).
    + intros Hsome. exfalso. apply Hwait, IH.
      destruct r as [code appId|code|functionName payload]; cbn [Worker.step] in Hsome.
      * by rewrite handle_startSession_waits in Hsome.
      * destruct (handlers_keep_bridgeReady st code "" VNull) as [E _].
        by rewrite <- E.
      * destruct (handlers_keep_bridgeReady st "" functionName payload) as [_ E].
        by rewrite <- E.
Qed.

(** X16.  In the states reached by handling requests one after the other:
    before [initialized] is sent, a [bridge] request waits for the session
    and calls nothing; after it, every [bridge] request calls the named
    function of the session, and a rejection of that call (or its never
    settling) is the outcome of the request, with no message sent. *)
Theorem bridge_after_initialized (name : string) (st : State)
    (functionName : string) (payload : Value) :
  handled name st →
  let r := handle_bridge functionName payload st in
  (initialized ∉ sent st → r = (st, Pending)) ∧
  (initialized ∈ sent st →
   ∃ bridge, bridgeReady st = Some bridge ∧
     trace r.1 = trace st ++ [CallBridge functionName (payloadString payload)] ∧
     sent r.1 = sent st ∧
     (∀ e, bridge functionName (payloadString payload) = Rejected e →
           r.2 = Rejected e) ∧
     (bridge functionName (payloadString payload) = Pending → r.2 = Pending)).
Proof.
  intros Hst r.
  pose proof (handled_initialized_iff name st Hst) as Hinit.
  split.
  - intros Hnot. unfold r. rewrite handle_bridge_cases.
    destruct (bridgeReady st) as [b|] eqn:Hb.
    + destruct Hnot. apply Hinit. by eexists.
    + destruct (pyodideReadyPromise st) as [?|e|] eqn:Hp; [done| |done].
      by destruct (pyodideReadyPromise_not_rejected _ _ _ _ _ name st e
                     (handled_reachable name st Hst)).
  - intros Hsent. apply Hinit in Hsent.
    pose proof (handled_bridgeReady_fulfilled name st Hst Hsent) as Hready.
    destruct Hsent as [b Hb]. exists b. split; [done|].
    unfold r. rewrite handle_bridge_cases, Hready, Hb. cbn [fst snd].
    split; [done|]. split; [by rewrite sent_log_other|].
    split; [by intros e ->|by intros ->].
Qed.

(** *** Installing packages *)

(** X17.  After a bootstrap that succeeded, [loadPackages] in every state
    of the worker makes one call of the installer of the interpreter that
    the bootstrap gave, with the text of the imports and the code, and the
    outcome of that call is the outcome of the request: a failure of the
    installer is not caught and not reported by a message. *)
Theorem loadPackages_after_bootstrap (name : string) (py : PyodideInterface) :
  bootstrap theController name (getPyodideVersion name) = Fulfilled py →
  ∀ st, reachable name st → ∀ code,
    let text := with_sql_imports code in
    let r := handle_loadPackages code st in
    r = (log (CallLoadPackagesFromImports text) st, loadPackagesFromImports py text) ∧
    sent r.1 = sent st ∧
    (∀ e, loadPackagesFromImports py text = Rejected e → r.2 = Rejected e).
Proof.
  intros Hboot st Hst code text r.
  destruct (reachable_fields _ _ _ _ _ name st Hst) as (_ & Hpy & Hready).
  rewrite main_run, Hboot in Hpy, Hready. simpl in Hpy, Hready.
  assert (Hr : r = (log (CallLoadPackagesFromImports text) st,
                    loadPackagesFromImports py text)).
  { unfold r. by rewrite handle_loadPackages_run, Hready, Hpy. }
  split; [done|]. rewrite Hr. cbn [fst snd].
  split; [by rewrite sent_log_other|done].
Qed.

(** *** The mounted file *)

(** X18.  Once the bootstrap promise is fulfilled and the controller is
    set, the first thing [startSession] does is to mount the code under
    the name [app-<appId>.py]; two requests that mount the same code under
    the same name have the same code and the same app id. *)
Theorem startSession_mounts_app_file (st : State) (c : ReadonlyWasmController)
    (code appId : string) :
  pyodideReadyPromise st = Fulfilled tt → controller st = Some c →
  (∃ rest, trace (handle_startSession code appId st).1
           = trace st ++ CallMountFilesystem code ("app-" +:+ appId +:+ ".py") :: rest) ∧
  (∀ code' appId' event rest rest',
     trace (handle_startSession code appId st).1 = trace st ++ event :: rest →
     trace (handle_startSession code' appId' st).1 = trace st ++ event :: rest' →
     code' = code ∧ appId' = appId).
Proof.
  intros Hready Hc.
  assert (Hfirst : ∀ code appId, ∃ rest,
            trace (handle_startSession code appId st).1
            = trace st ++ CallMountFilesystem code ("app-" +:+ appId +:+ ".py") :: rest).
  { intros code0 appId0. rewrite handle_startSession_run by done. rewrite Hc.
    cbn zeta. destruct (mountFilesystem c code0 _) as [nb| |]; cbn [fst].
    - destruct (startSession c nb); cbn [fst]; simpl; rewrite <- ?app_assoc;
        by eexists.
    - simpl. rewrite <- ?app_assoc. by eexists.
    - simpl. by eexists. }
  split; [apply Hfirst|].
  intros code' appId' event rest rest' E E'.
  destruct (Hfirst code appId) as [r1 H1], (Hfirst code' appId') as [r2 H2].
  rewrite H1 in E. rewrite H2 in E'.
  apply app_inv_head in E, E'. injection E as <- _. injection E' as -> Hname _.
  split; [done|].
  exact (append_cancel_r appId' appId ".py" Hname).
Qed.

End SessionLaws.

(** ** The further properties on the sample document and world *)

Lemma onDrop_leaves_tray_witness :
  let notebook := [Grid.cell_a; Grid.cell_b; Grid.cell_c] in
  let layout' := Grid.with_cells Grid.layout_ab
                   ([Grid.item_a; Grid.item_b] ++ [Grid.Item.mk "c" 0 2 3 3]) in
  Grid.cell_c ∈ Grid.notInGrid Grid.layout_ab notebook ∧
  Grid.cell_c ∈ Grid.inGrid layout' notebook ∧
  Grid.cell_c ∉ Grid.notInGrid layout' notebook.
Proof.
  intros notebook layout'.
  assert (Hcell : Grid.cell_c ∈ notebook).
  { apply list_elem_of_further, list_elem_of_further, list_elem_of_here. }
  destruct (onDrop_leaves_tray Grid.layout_ab layout' [Grid.item_a; Grid.item_b]
              (Grid.Item.mk "c" 0 2 3 3) notebook Grid.cell_c Hcell eq_refl eq_refl)
    as (Hin & Hout & _).
  split; [|by split].
  apply list_elem_of_filter. split; [|done].
  rewrite inGridIds_spec. intros (c & Hc & Hid).
  apply elem_of_cons in Hc as [->|Hc]; [discriminate|].
  apply list_elem_of_singleton in Hc as ->. discriminate.
Defined.

Lemma onDelete_laws_witness :
  length (Grid.cells (Grid.onDelete Grid.layout_ab "a")) + 1
  = length (Grid.cells Grid.layout_ab) ∧
  Grid.onDelete Grid.layout_ab "c" = Grid.layout_ab.
Proof.
  destruct (onDelete_laws Grid.layout_ab "a" "b") as (_ & _ & _ & _ & Hlen).
  destruct (onDelete_laws Grid.layout_ab "c" "b") as (_ & _ & Hout & _).
  split.
  - apply Hlen; [apply unique_ids_layout_ab|apply list_elem_of_here].
  - apply Hout. intros Hin.
    apply elem_of_cons in Hin as [?|Hin]; [discriminate|].
    apply list_elem_of_singleton in Hin. discriminate.
Defined.

Lemma onDrop_then_onDelete_witness :
  let layout' := Grid.with_cells Grid.layout_ab
                   ([Grid.item_a; Grid.item_b] ++ [Grid.Item.mk "c" 0 2 3 3]) in
  Grid.cells (Grid.onDelete layout' "c") = [Grid.item_a; Grid.item_b].
Proof.
  intros layout'.
  destruct (onDrop_then_onDelete Grid.layout_ab layout' [Grid.item_a; Grid.item_b]
              (Grid.Item.mk "c" 0 2 3 3) eq_refl) as (_ & Hback & _).
  apply Hback. intros Hin.
  apply elem_of_cons in Hin as [?|Hin]; [discriminate|].
  apply list_elem_of_singleton in Hin. discriminate.
Defined.


Lemma tray_onDragStart_width_witness :
  ∃ w, Grid.Dropping.w (Grid.tray_onDragStart Grid.layout_ab Grid.cell_c 45) = Some w ∧
       ∃ k : Z, (w == inject_Z k)%Q.
Proof.
  destruct (tray_onDragStart_width Grid.layout_ab Grid.cell_c 45 12 eq_refl)
    as (w & Hw & _ & Hwhole & _).
  exists w. split; [done|]. apply Hwhole. by exists 3%Z.
Defined.

Lemma handleSetSide_twice_witness :
  Grid.cellSide
    (Grid.handleSetSide (Grid.handleSetSide Grid.layout_ab "b" Grid.side_right)
       "b" Grid.side_right) !! "b" = None ∧
  Grid.cellSide
    (Grid.handleSetSide (Grid.handleSetSide Grid.layout_ab "b" Grid.side_left)
       "b" Grid.side_left) = Grid.cellSide Grid.layout_ab.
Proof.
  destruct (handleSetSide_twice Grid.layout_ab "b" Grid.side_right)
    as (_ & _ & Hother & _).
  destruct (handleSetSide_twice Grid.layout_ab "b" Grid.side_left)
    as (_ & Hback & _).
  split.
  - by apply (Hother Grid.side_left).
  - apply Hback. by right.
Defined.

Lemma independent_edits_commute_witness :
  Grid.handleSetSide (Grid.handleSetSide Grid.layout_ab "a" Grid.side_left)
    "b" Grid.side_left
  = Grid.handleSetSide (Grid.handleSetSide Grid.layout_ab "b" Grid.side_left)
      "a" Grid.side_left.
Proof.
  by apply (independent_edits_commute Grid.layout_ab "a" "b" Grid.side_left
              Grid.side_left true).
Defined.

Lemma side_menu_select_witness :
  Grid.trigger_icon
    (Grid.cellSide (Grid.handleSetSide Grid.layout_ab "a" Grid.side_right) !! "a")
  = Grid.AlignEndVerticalIcon ∧
  Grid.trigger_icon
    (Grid.cellSide (Grid.handleSetSide Grid.layout_ab "b" Grid.side_left) !! "b")
  = Grid.AlignHorizontalSpaceAroundIcon.
Proof.
  destruct (side_menu_select Grid.layout_ab "a" Grid.side_right
              Grid.AlignEndVerticalIcon) as [_ Ha].
  { apply list_elem_of_further, list_elem_of_here. }
  destruct (side_menu_select Grid.layout_ab "b" Grid.side_left
              Grid.AlignStartVerticalIcon) as [_ Hb].
  { apply list_elem_of_here. }
  split.
  - destruct Ha as [(_ & _ & Hicon & _)|(Hsame & _)]; [done|discriminate].
  - destruct Hb as [(Hne & _)|(_ & _ & Hicon & _)]; [by destruct Hne|done].
Defined.

Lemma stalled_bootstrap_stalls_requests_witness :
  let st := Worker.main Worker.sample_prettyError Worker.sample_getPyodideVersion
              Worker.stalled_controller "0.9.0" in
  Worker.sent st = [Worker.ready] ∧
  Worker.handle_startSession Worker.sample_prettyError "x = 1" "main" st
  = (st, Worker.Pending) ∧
  Worker.handle_bridge Json.stringify Json.parse "echo" Js.VNull st
  = (st, Worker.Pending).
Proof.
  intros st.
  destruct (stalled_bootstrap_stalls_requests Worker.sample_prettyError
              Worker.sample_getPyodideVersion Worker.stalled_controller
              Json.stringify Json.parse "0.9.0" eq_refl) as [Hsent Hall].
  destruct (Hall st (Worker.reachable_main _ _ _ _ _ _)) as (Hstart & _ & Hbridge).
  split; [done|]. split; [apply Hstart|apply Hbridge].
Defined.

Lemma messages_of_handled_states_witness :
  let st := Worker.step Worker.sample_prettyError Json.stringify Json.parse
              (Worker.startSession_request "x = 1" "main")
              (Worker.main Worker.sample_prettyError Worker.sample_getPyodideVersion
                 Worker.working_controller "0.9.0") in
  (∃ rest, Worker.sent st = Worker.ready :: rest ∧ Worker.ready ∉ rest) ∧
  (Worker.initialized ∈ Worker.sent st ↔ is_Some (Worker.bridgeReady st)).
Proof.
  intros st.
  destruct (messages_of_handled_states Worker.sample_prettyError
              Worker.sample_getPyodideVersion Worker.working_controller
              Json.stringify Json.parse "0.9.0" st) as (Hready & Hinit & _);
    [|by split].
  apply Worker.handled_step, Worker.handled_main.
Defined.

Lemma bridge_after_initialized_witness :
  let st0 := Worker.main Worker.sample_prettyError Worker.sample_getPyodideVersion
               Worker.working_controller "0.9.0" in
  let st := Worker.step Worker.sample_prettyError Json.stringify Json.parse
              (Worker.startSession_request "x = 1" "main") st0 in
  Worker.handle_bridge Json.stringify Json.parse "fail" Js.VNull st0
  = (st0, Worker.Pending) ∧
  (Worker.handle_bridge Json.stringify Json.parse "fail" Js.VNull st).2
  = Worker.Rejected (Js.Error "failed").
Proof.
  intros st0 st.
  destruct (bridge_after_initialized Worker.sample_prettyError
              Worker.sample_getPyodideVersion Worker.working_controller
              Json.stringify Json.parse "0.9.0" st0 "fail" Js.VNull)
    as [Hbefore _]; [apply Worker.handled_main|].
  destruct (bridge_after_initialized Worker.sample_prettyError
              Worker.sample_getPyodideVersion Worker.working_controller
              Json.stringify Json.parse "0.9.0" st "fail" Js.VNull)
    as [_ Hafter]; [apply Worker.handled_step, Worker.handled_main|].
  split.
  - apply Hbefore. intros Hin.
    apply list_elem_of_singleton in Hin. discriminate.
  - destruct Hafter as (b & Hb & _ & _ & Hrej & _).
    { apply list_elem_of_further, list_elem_of_here. }
    injection Hb as <-. by apply Hrej.
Defined.

Lemma loadPackages_after_bootstrap_witness :
  let st := Worker.main Worker.sample_prettyError Worker.sample_getPyodideVersion
              Worker.offline_controller "0.9.0" in
  let r := Worker.handle_loadPackages "df = mo.sql(q)" st in
  r.2 = Worker.Rejected (Js.Error "offline") ∧ Worker.sent r.1 = Worker.sent st.
Proof.
  intros st r.
  destruct (loadPackages_after_bootstrap Worker.sample_prettyError
              Worker.sample_getPyodideVersion Worker.offline_controller
              Json.stringify Json.parse "0.9.0" Worker.offline_pyodide eq_refl
              st (Worker.reachable_main _ _ _ _ _ _) "df = mo.sql(q)")
    as (_ & Hsent & Hrej).
  split; [by apply Hrej|done].
Defined.

Lemma startSession_mounts_app_file_witness :
  let st := Worker.main Worker.sample_prettyError Worker.sample_getPyodideVersion
              Worker.working_controller "0.9.0" in
  ∃ rest, Worker.trace
            (Worker.handle_startSession Worker.sample_prettyError "x = 1" "main" st).1
          = Worker.trace st ++ Worker.CallMountFilesystem "x = 1" "app-main.py" :: rest.
Proof.
  intros st.
  by destruct (startSession_mounts_app_file Worker.sample_prettyError st
                 Worker.working_controller "x = 1" "main" eq_refl eq_refl)
    as [Hfirst _].
Defined.
